(** * AI-News-Orchestrator: timeline consolidation, date extraction and
      credibility scoring

    A shallow embedding of [timeline_generator.py], [article_processor.py]
    ([_extract_dates]), [ai_analyzer.py] ([detect_bias]),
    [credibility_scorer.py] and the guard of [app.py], followed by the
    properties of the specification that were checked against them.

    Conventions of the embedding.
    - A Python [str] is a [string]; the model covers the ASCII fragment
      ([lower] only folds [A-Z], [\d] only matches [0-9]).
    - A Python [dict] with a fixed set of keys is a record; a key that the
      code reads with [.get(k, default)] or tests with [k in d] is an
      [option] field.
    - A [dict] used as an insertion-ordered map ([defaultdict(list)]) is an
      association list in first-insertion order.
    - A function that can raise returns [result].
    - Python floats are IEEE binary64 numbers: [PrimFloat]. *)

From Stdlib Require Import ZArith List Bool Ascii String Lia Permutation Sorted.
From Stdlib Require Import Floats DecimalString.
Import ListNotations.
Open Scope string_scope.
Open Scope list_scope.
Open Scope Z_scope.

Set Implicit Arguments.

(** ** Results of fallible code *)

Inductive exn := ValueError | KeyError | TypeError.

Inductive result (A : Type) :=
| Ok (a : A)
| Raise (e : exn).
Arguments Ok {A} a.
Arguments Raise {A} e.

Definition bind {A B} (r : result A) (k : A -> result B) : result B :=
  match r with
  | Ok a => k a
  | Raise e => Raise e
  end.

Notation "x <- r ;; k" := (bind r (fun x => k))
  (at level 61, r at next level, right associativity).

(** [[f(x) for x in l]] where [f] may raise: the first exception aborts. *)
Fixpoint mapM {A B} (f : A -> result B) (l : list A) : result (list B) :=
  match l with
  | [] => Ok []
  | x :: l' => y <- f x ;; ys <- mapM f l' ;; Ok (y :: ys)
  end.

(** ** Python string operations (ASCII fragment) *)

Module PyStr.

Definition is_upper (c : ascii) : bool :=
  let n := nat_of_ascii c in (65 <=? n)%nat && (n <=? 90)%nat.

Definition lower_char (c : ascii) : ascii :=
  if is_upper c then ascii_of_nat (nat_of_ascii c + 32) else c.

(** [s.lower()] *)
Fixpoint lower (s : string) : string :=
  match s with
  | EmptyString => EmptyString
  | String c s' => String (lower_char c) (lower s')
  end.

(** [needle in hay] *)
Fixpoint contains (needle hay : string) : bool :=
  prefix needle hay ||
  match hay with
  | EmptyString => false
  | String _ hay' => contains needle hay'
  end.

(** [s.count(c)] for a one-character [c] *)
Fixpoint count (c : ascii) (s : string) : Z :=
  match s with
  | EmptyString => 0
  | String c' s' => (if Ascii.eqb c' c then 1 else 0) + count c s'
  end.

(** [s[:n]] *)
Fixpoint take (n : nat) (s : string) : string :=
  match n, s with
  | S n', String c s' => String c (take n' s')
  | _, _ => EmptyString
  end.

(** [sep.join(l)] *)
Fixpoint join (sep : string) (l : list string) : string :=
  match l with
  | [] => ""
  | [x] => x
  | x :: l' => (x ++ sep ++ join sep l')%string
  end.

(** [any(w in s for w in words)] *)
Definition any_in (words : list string) (s : string) : bool :=
  existsb (fun w => contains w s) words.

End PyStr.

(** ** [datetime]: the part of CPython's [datetime] and [_strptime] the
       code relies on *)

Module PyDate.

(** A naive [datetime] (no [tzinfo]). *)
Record datetime := mkdt {
  year : Z; month : Z; day : Z;
  hour : Z; minute : Z; second : Z; microsecond : Z
}.

Definition midnight (y m d : Z) : datetime := mkdt y m d 0 0 0 0.

(** [datetime.min] *)
Definition datetime_min : datetime := midnight 1 1 1.

(** Comparison of naive datetimes is the lexicographic comparison of
    their fields. *)
Definition fields (t : datetime) : list Z :=
  [year t; month t; day t; hour t; minute t; second t; microsecond t].

Fixpoint lex_leb (a b : list Z) : bool :=
  match a, b with
  | [], _ => true
  | _ :: _, [] => false
  | x :: a', y :: b' => (x <? y) || ((x =? y) && lex_leb a' b')
  end.

Definition leb (a b : datetime) : bool := lex_leb (fields a) (fields b).
Definition le (a b : datetime) : Prop := leb a b = true.

Definition is_leap (y : Z) : bool :=
  (y mod 4 =? 0) && (negb (y mod 100 =? 0) || (y mod 400 =? 0)).

Definition days_in_month (y m : Z) : Z :=
  if m =? 2 then (if is_leap y then 29 else 28)
  else if (m =? 4) || (m =? 6) || (m =? 9) || (m =? 11) then 30
  else 31.

Definition days_before_year (y : Z) : Z :=
  let y1 := y - 1 in y1 * 365 + y1 / 4 - y1 / 100 + y1 / 400.

Definition days_before_month (y m : Z) : Z :=
  fold_right Z.add 0
    (map (days_in_month y) (map Z.of_nat (seq 1 (Z.to_nat (m - 1))))).

(** [t.toordinal()] *)
Definition toordinal (t : datetime) : Z :=
  days_before_year (year t) + days_before_month (year t) (month t) + day t.

(** [(a - b).days] for two datetimes at midnight *)
Definition days_between (a b : datetime) : Z := toordinal a - toordinal b.

Definition valid_date (y m d : Z) : bool :=
  (1 <=? y) && (y <=? 9999) && (1 <=? m) && (m <=? 12) &&
  (1 <=? d) && (d <=? days_in_month y m).

(** *** [datetime.strptime(s, "%Y-%m-%d")]

    [_strptime] compiles the format to the regular expression
    [(?P<Y>\d\d\d\d)-(?P<m>1[0-2]|0[1-9]|[1-9])-(?P<d>3[0-1]|[1-2]\d|0[1-9]|[1-9]| [1-9])],
    matches it at the start of the string, and raises [ValueError] when
    there is no match, when the match does not reach the end of the
    string, or when the fields are not a date. *)

Definition digit (c : ascii) : option Z :=
  let n := nat_of_ascii c in
  if (48 <=? n)%nat && (n <=? 57)%nat then Some (Z.of_nat (n - 48)) else None.

Definition in_range (lo hi : Z) (c : ascii) : option Z :=
  match digit c with
  | Some v => if (lo <=? v) && (v <=? hi) then Some v else None
  | None => None
  end.

(** One alternative of a group: it reads a prefix and yields the
    characters read and the rest. *)
Definition alt := string -> option (Z * string).

Definition two (lo1 hi1 lo2 hi2 : Z) : alt := fun s =>
  match s with
  | String a (String b rest) =>
      match in_range lo1 hi1 a, in_range lo2 hi2 b with
      | Some x, Some y => Some (10 * x + y, rest)
      | _, _ => None
      end
  | _ => None
  end.

Definition one (lo hi : Z) : alt := fun s =>
  match s with
  | String a rest =>
      match in_range lo hi a with
      | Some x => Some (x, rest)
      | None => None
      end
  | _ => None
  end.

Definition space_one (lo hi : Z) : alt := fun s =>
  match s with
  | String " " rest => one lo hi rest
  | _ => None
  end.

Definition re_Y : alt := fun s =>
  match s with
  | String a (String b (String c (String d rest))) =>
      match digit a, digit b, digit c, digit d with
      | Some x, Some y, Some z, Some w =>
          Some (1000 * x + 100 * y + 10 * z + w, rest)
      | _, _, _, _ => None
      end
  | _ => None
  end.

Definition re_m : list alt := [two 1 1 0 2; two 0 0 1 9; one 1 9].

Definition re_d : list alt :=
  [two 3 3 0 1; two 1 2 0 9; two 0 0 1 9; one 1 9; space_one 1 9].

Definition dash (s : string) : option string :=
  match s with
  | String "-" rest => Some rest
  | _ => None
  end.

(** Ordered choice with backtracking: the first alternative after which
    the continuation matches. *)
Fixpoint first_match {A} (alts : list alt) (s : string)
    (k : Z -> string -> option A) : option A :=
  match alts with
  | [] => None
  | a :: alts' =>
      match (match a s with Some (v, rest) => k v rest | None => None end) with
      | Some r => Some r
      | None => first_match alts' s k
      end
  end.

(** [format_regex.match(s)]: the fields and the unread rest *)
Definition re_match (s : string) : option (Z * Z * Z * string) :=
  match re_Y s with
  | None => None
  | Some (y, s1) =>
      match dash s1 with
      | None => None
      | Some s2 =>
          first_match re_m s2 (fun m s3 =>
            match dash s3 with
            | None => None
            | Some s4 =>
                first_match re_d s4 (fun d s5 => Some (y, m, d, s5))
            end)
      end
  end.

Definition strptime (s : string) : result datetime :=
  match re_match s with
  | None => Raise ValueError
  | Some (y, m, d, EmptyString) =>
      if valid_date y m d then Ok (midnight y m d) else Raise ValueError
  | Some (_, _, _, String _ _) => Raise ValueError
  end.

(** [t.strftime("%Y-%m-%d")] (years of four digits) *)
Definition digit_char (v : Z) : ascii := ascii_of_nat (48 + Z.to_nat (v mod 10)).

Definition pad2 (v : Z) : string :=
  String (digit_char (v / 10)) (String (digit_char v) "").

Definition pad4 (v : Z) : string :=
  String (digit_char (v / 1000)) (String (digit_char (v / 100))
    (String (digit_char (v / 10)) (String (digit_char v) ""))).

Definition strftime (t : datetime) : string :=
  (pad4 (year t) ++ "-" ++ pad2 (month t) ++ "-" ++ pad2 (day t))%string.

(** [sorted(l, key=key)]: the stable sort by a datetime key.  A stable
    sort has one result, which insertion from the right computes. *)
Section Sorted.
Variable A : Type.
Variable key : A -> datetime.

Fixpoint insert (x : A) (l : list A) : list A :=
  match l with
  | [] => [x]
  | y :: l' => if leb (key x) (key y) then x :: l else y :: insert x l'
  end.

Definition sorted (l : list A) : list A := fold_right insert [] l.
End Sorted.

(** [max(l)] and [min(l)] of a non-empty list of datetimes *)
Definition dt_max (a : datetime) (l : list datetime) : datetime :=
  fold_left (fun m x => if leb x m then m else x) l a.
Definition dt_min (a : datetime) (l : list datetime) : datetime :=
  fold_left (fun m x => if leb m x then m else x) l a.

End PyDate.

(** ** Articles and dated mentions

    The dictionaries the modules pass around.  [mention] is one element of
    [article["extracted_dates"]], built by [_extract_dates]. *)

Module Mention.
Record t := mk {
  date : string;              (* "YYYY-MM-DD" *)
  datetime : PyDate.datetime;
  context : string;
  source : string             (* "metadata" or "text" *)
}.
End Mention.

Module Article.
Record t := mk {
  title : option string;
  source : option string;
  publishedAt : option string;
  cleaned_content : option string;
  extracted_dates : option (list Mention.t)
}.

(** [d.get(k, default)] *)
Definition get {A} (field : option A) (default : A) : A :=
  match field with
  | Some v => v
  | None => default
  end.
End Article.

(** ** [ArticleProcessor._extract_dates] *)

Module Extractor.

(** The five regular expressions of [_extract_dates], in the order the
    code runs them; the last one is [natural_dates]. *)
Inductive pattern :=
| NumericDate       (* \b\d{1,2}[/-]\d{1,2}[/-]\d{2,4}\b *)
| MonthDayYear      (* \b(?:January|...|December)\s+\d{1,2},?\s+\d{4}\b *)
| IsoDate           (* \b\d{4}-\d{2}-\d{2}\b *)
| PrepositionDate   (* \b(?:on|by|since|until|from|to)\s+([A-Z][a-z]+\s+\d{1,2},?\s+\d{4}) *)
| NaturalDate.      (* \b(?:on|by|since|until|from|to|in)\s+([A-Z][a-z]+\s+\d{1,2},?\s+\d{4}) *)

Definition date_patterns : list pattern :=
  [NumericDate; MonthDayYear; IsoDate; PrepositionDate].

(** A match object: its span and [group(1)]. *)
Record rematch := mkmatch { m_start : nat; m_end : nat; group1 : string }.

(** What [dateparser.parse] does: [None], a datetime (with or without a
    [tzinfo]), or an exception. *)
Inductive parsed :=
| NoDate
| Parsed (t : PyDate.datetime) (tzinfo : option Z)
| ParseError.

Definition is_space (c : ascii) : bool :=
  let n := nat_of_ascii c in
  ((9 <=? n) && (n <=? 13) || (28 <=? n) && (n <=? 32))%nat.

Fixpoint lstrip (s : string) : string :=
  match s with
  | String c s' => if is_space c then lstrip s' else s
  | EmptyString => EmptyString
  end.

Fixpoint rstrip (s : string) : string :=
  match s with
  | String c s' =>
      match rstrip s' with
      | EmptyString => if is_space c then EmptyString else String c EmptyString
      | r => String c r
      end
  | EmptyString => EmptyString
  end.

(** [s.strip()] *)
Definition strip (s : string) : string := rstrip (lstrip s).

Fixpoint drop (n : nat) (s : string) : string :=
  match n, s with
  | S n', String _ s' => drop n' s'
  | _, _ => s
  end.

(** [s[a:b]] for [0 <= a], [b <= len(s)] *)
Definition slice (a b : nat) (s : string) : string :=
  PyStr.take (b - a) (drop a s).

Section Extract.
(** The collaborators: the date parser (given its [RELATIVE_BASE]), the
    clock ([now n] is what the [n]-th call of [datetime.now()] in this
    run returns) and the regular-expression engine. *)
Variable parse : PyDate.datetime -> string -> parsed.
Variable now : nat -> PyDate.datetime.
Variable finditer : pattern -> string -> list rematch.

(** The local variables of [_extract_dates], and the number of clock
    reads so far. *)
Record state := mkstate {
  tick : nat;
  dates : list Mention.t;
  found_dates : list string
}.

(** [parsed.replace(tzinfo=None)] keeps the fields. *)
Definition replace_tzinfo_none (t : PyDate.datetime) (tzinfo : option Z)
  : PyDate.datetime := t.

(** [datetime.now()] *)
Definition clock (st : state) : PyDate.datetime * state :=
  (now (tick st), mkstate (S (tick st)) (dates st) (found_dates st)).

Definition append (m : Mention.t) (st : state) : state :=
  mkstate (tick st) (dates st ++ [m]) (found_dates st).

Definition add_found (k : string) (st : state) : state :=
  mkstate (tick st) (dates st) (k :: found_dates st).

Definition mem (k : string) (l : list string) : bool :=
  existsb (String.eqb k) l.

(** The publication date: a mention tagged "metadata", which does not
    enter [found_dates] (that set is created after it). *)
Definition published (published_date : string) (st : state) : state :=
  if String.eqb published_date "" then st
  else
    let (base, st) := clock st in
    match parse base published_date with
    | Parsed t tz =>
        let t := replace_tzinfo_none t tz in
        let (cur, st) := clock st in
        if PyDate.leb t cur
        then append (Mention.mk (PyDate.strftime t) t
                       "Article publication date" "metadata") st
        else st
    | NoDate => st
    | ParseError => st        (* except: pass *)
    end.

(** The body shared by the two loops over matches: parse [date_str],
    drop a future date, and record the first mention of each
    [date_key].  The boolean tells whether [dateparser.parse] raised. *)
Definition candidate (date_str context : string) (st : state)
  : state * bool :=
  let (base, st) := clock st in
  match parse base date_str with
  | Parsed t tz =>
      let t := replace_tzinfo_none t tz in
      let (cur, st) := clock st in
      if negb (PyDate.leb t cur) then (st, false)       (* continue *)
      else
        let date_key := PyDate.strftime t in
        if mem date_key (found_dates st) then (st, false)
        else (append (Mention.mk date_key t context "text")
                (add_found date_key st), false)
  | NoDate => (st, false)
  | ParseError => (st, true)
  end.

(** One match of one of [date_patterns]: the candidate is [group(0)],
    the context up to 50 characters around the span; an exception
    only skips this match. *)
Definition pattern_match (text : string) (st : state) (m : rematch) : state :=
  let date_str := slice (m_start m) (m_end m) text in
  let start := (m_start m - 50)%nat in
  let end_ := Nat.min (String.length text) (m_end m + 50) in
  fst (candidate date_str (strip (slice start end_ text)) st).

Definition scan_pattern (text : string) (st : state) (p : pattern) : state :=
  fold_left (pattern_match text) (finditer p text) st.

(** The [natural_dates] loop: the candidate is [group(1)], the context
    [group(0)]; the [try] is around the loop, so an exception ends
    it. *)
Fixpoint natural (text : string) (ms : list rematch) (st : state) : state :=
  match ms with
  | [] => st
  | m :: ms' =>
      let (st, raised) :=
        candidate (group1 m) (slice (m_start m) (m_end m) text) st in
      if raised then st else natural text ms' st
  end.

Definition collect (text published_date : string) : state :=
  let st := published published_date (mkstate 0 [] []) in
  let st := fold_left (scan_pattern text) date_patterns st in
  natural text (finditer NaturalDate text) st.

(** [_extract_dates(text, published_date)] *)
Definition _extract_dates (text published_date : string) : list Mention.t :=
  let st := collect text published_date in
  let (current_date, _) := clock st in
  let valid_dates :=
    filter (fun d => PyDate.leb (Mention.datetime d) current_date) (dates st) in
  PyDate.sorted Mention.datetime valid_dates.
End Extract.
End Extractor.

(** ** [TimelineGenerator] *)

Module Timeline.

(** A timeline event: a dictionary with the keys "date", "event" and
    "source", to which merging adds "event_count" and the milestone pass
    "is_milestone". *)
Record Event := mkEvent {
  date : string;
  event : string;
  source : option string;
  event_count : option Z;
  is_milestone : option bool
}.

(** One element of [analysis["timeline"]], and the analysis itself; the
    code tests the presence of each key. *)
Record Entry := mkEntry { entry_date : option string; entry_event : option string }.
Record Analysis := mkAnalysis { timeline : option (list Entry) }.

(** *** Collection (lines 27-50) *)

Definition ai_event (e : Entry) : list Event :=
  match entry_date e, entry_event e with
  | Some d, Some ev => [mkEvent d ev (Some "ai_analysis") None None]
  | _, _ => []
  end.

Definition ai_events (analysis : Analysis) : list Event :=
  match timeline analysis with
  | Some entries => flat_map ai_event entries
  | None => []
  end.

Definition has_date (date_str : string) (e : Event) : bool :=
  String.eqb (date e) date_str.

Definition coverage (article : Article.t) (date_str : string) : Event :=
  mkEvent date_str
    ("News coverage: " ++ PyStr.take 80 (Article.get (Article.title article) ""))%string
    (Some (Article.get (Article.source article) "Unknown"))
    None None.

Definition add_date (article : Article.t) (timeline_events : list Event)
    (date_info : Mention.t) : list Event :=
  let date_str := Mention.date date_info in
  if existsb (has_date date_str) timeline_events then timeline_events
  else timeline_events ++ [coverage article date_str].

Definition add_article (timeline_events : list Event) (article : Article.t)
  : list Event :=
  fold_left (add_date article)
    (Article.get (Article.extracted_dates article) []) timeline_events.

Definition collect (analysis : Analysis) (articles : list Article.t) : list Event :=
  fold_left add_article articles (ai_events analysis).

(** *** [_merge_duplicate_dates] *)

(** [date_groups[d].append(e)] on the insertion-ordered dictionary *)
Fixpoint group_append (d : string) (e : Event)
    (groups : list (string * list Event)) : list (string * list Event) :=
  match groups with
  | [] => [(d, [e])]
  | (k, es) :: rest =>
      if String.eqb k d then (k, es ++ [e]) :: rest
      else (k, es) :: group_append d e rest
  end.

Definition date_groups (events : list Event) : list (string * list Event) :=
  fold_left (fun groups e => group_append (date e) e groups) events [].

Section Merge.
(** [list(set(l))]: the elements of [l] without repetition, in the
    order in which the set iterates, which Python leaves open. *)
Variable list_of_set : list string -> list string.

Definition merged_event (d : string) (date_events : list Event) : Event :=
  let event_descriptions := map event date_events in
  let sources :=
    list_of_set (map (fun e => Article.get (source e) "Unknown") date_events) in
  mkEvent d
    (PyStr.join " | " (firstn 3 event_descriptions))
    (Some (PyStr.join ", " (firstn 3 sources)))
    (Some (Z.of_nat (List.length date_events)))
    None.

Definition merge_group (g : string * list Event) : list Event :=
  let (d, date_events) := g in
  match date_events with
  | [] => [merged_event d date_events]
  | [e] => [e]
  | _ => [merged_event d date_events]
  end.

Definition _merge_duplicate_dates (events : list Event) : list Event :=
  flat_map merge_group (date_groups events).

(** *** [_sort_timeline] *)

Definition parse_date (date_str : string) : PyDate.datetime :=
  match PyDate.strptime date_str with
  | Ok t => t
  | Raise _ => PyDate.datetime_min
  end.

Definition _sort_timeline (events : list Event) : list Event :=
  PyDate.sorted (fun x => parse_date (date x)) events.

(** *** [_identify_milestones]

    The events are dictionaries mutated in place: [update i f l] is
    [f] applied to [l[i]]. *)

Definition set_milestone (b : bool) (e : Event) : Event :=
  mkEvent (date e) (event e) (source e) (event_count e) (Some b).

Fixpoint update (i : nat) (f : Event -> Event) (l : list Event) : list Event :=
  match l, i with
  | [], _ => []
  | x :: l', O => f x :: l'
  | x :: l', S i' => x :: update i' f l'
  end.

Definition milestone_keywords : list string :=
  ["launch"; "announced"; "completed"; "achieved"; "landed"; "successful";
   "failed"; "breakthrough"; "discovery"; "summit"; "signed"; "released"].

Definition has_keyword (e : Event) : bool :=
  let event_lower := PyStr.lower (event e) in
  PyStr.any_in milestone_keywords event_lower.

Definition mark_by_keyword (e : Event) : Event :=
  set_milestone (has_keyword e) e.

Definition _identify_milestones (events : list Event) : list Event :=
  let n := List.length events in
  if (n <=? 3)%nat then map (set_milestone true) events
  else
    let events := update 0 (set_milestone true) events in
    let events := update (n - 1) (set_milestone true) events in
    (* for event in events[1:-1] *)
    fold_left (fun evs i => update i mark_by_keyword evs)
      (seq 1 (n - 2)) events.

(** *** [generate_timeline] *)

Definition generate_timeline (analysis : Analysis) (articles : list Article.t)
  : list Event :=
  let timeline_events := collect analysis articles in
  let timeline_events := _merge_duplicate_dates timeline_events in
  let timeline_events := _sort_timeline timeline_events in
  _identify_milestones timeline_events.
End Merge.

(** *** [get_timeline_stats] *)

Record Stats := mkStats {
  total_events : Z;
  date_range : string;
  milestone_count : Z;
  duration_days : option Z     (* the key is absent for an empty timeline *)
}.

Definition get_milestone (e : Event) : bool :=
  Article.get (is_milestone e) false.

Definition get_timeline_stats (timeline : list Event) : result Stats :=
  match timeline with
  | [] => Ok (mkStats 0 "N/A" 0 None)
  | first :: _ =>
      dates <- mapM (fun e => PyDate.strptime (date e)) timeline ;;
      let milestones := filter get_milestone timeline in
      Ok (mkStats
            (Z.of_nat (List.length timeline))
            (date first ++ " to " ++ date (last timeline first))%string
            (Z.of_nat (List.length milestones))
            (Some (match dates with
                   | [] => 0
                   | d :: ds =>
                       PyDate.days_between (PyDate.dt_max d ds) (PyDate.dt_min d ds)
                   end)))
  end.

End Timeline.

(** ** [AIAnalyzer.detect_bias] *)

Module Bias.

Record t := mk { bias_score : Z; flags : list string; is_clickbait : bool }.

Definition clickbait_words : list string :=
  ["shocking"; "amazing"; "you won't believe"; "secret"; "exposed"].

Definition clickbait_flag (word : string) : string :=
  ("Clickbait language detected: '" ++ word ++ "'")%string.

Definition exclamation_flag : string := "Excessive exclamation marks".

Definition exclamation_count (title content : string) : Z :=
  PyStr.count "!" title + PyStr.count "!" content.

(** One turn of the loop over [clickbait_words]; the state is
    [(score, flags)]. *)
Definition check_word (title_lower : string) (st : Z * list string)
    (word : string) : Z * list string :=
  let (score, flags) := st in
  if PyStr.contains word title_lower
  then (score + 10, flags ++ [clickbait_flag word])
  else (score, flags).

Definition detect_bias (article : Article.t) : t :=
  let title := Article.get (Article.title article) "" in
  let content := PyStr.take 1000 (Article.get (Article.cleaned_content article) "") in
  let title_lower := PyStr.lower title in
  let (score, flags) := fold_left (check_word title_lower) clickbait_words (0, []) in
  let (score, flags) :=
    if exclamation_count title content >? 3
    then (score + 5, flags ++ [exclamation_flag])
    else (score, flags) in
  mk (Z.min score 100) flags (score >? 15).

End Bias.

(** ** [CredibilityScorer] *)

Module Credibility.

Definition REPUTABLE_SOURCES : list string :=
  ["bbc"; "reuters"; "ap news"; "associated press"; "the new york times";
   "the washington post"; "the guardian"; "cnn"; "npr"; "pbs"; "al jazeera";
   "bloomberg"; "wall street journal"; "forbes"; "time"; "newsweek"].

Definition reputable_sources : list string := map PyStr.lower REPUTABLE_SOURCES.

Record SourceScore := mkSource {
  score : Z; is_reputable : bool; reason : string; source_name : string
}.

Definition score_source (source_name : string) : SourceScore :=
  let source_lower := PyStr.lower source_name in
  let is_reputable := PyStr.any_in reputable_sources source_lower in
  let (base_score, reason) :=
    if is_reputable then
      if PyStr.any_in ["bbc"; "reuters"; "associated press"; "ap news";
                       "the new york times"] source_lower
      then (95, "Highly reputable news source")
      else (88, "Known reputable news source")
    else
      if PyStr.any_in ["news"; "times"; "post"; "tribune"] source_lower
      then (70, "Appears to be a news organization")
      else if PyStr.any_in ["blog"; "medium"; "substack"] source_lower
      then (40, "Blog or independent publication")
      else (55, "Unknown source") in
  mkSource base_score is_reputable reason source_name.

(** *** Float arithmetic

    [float(n)] for an integer, and [int(x)], which truncates towards zero
    and raises on an infinity or a NaN. *)
Definition float_of_int (z : Z) : float :=
  match z with
  | Z0 => 0%float
  | Zpos _ => PrimFloat.of_uint63 (Uint63.of_Z z)
  | Zneg p => PrimFloat.opp (PrimFloat.of_uint63 (Uint63.of_Z (Zpos p)))
  end.

Definition int (x : float) : result Z :=
  match Prim2SF x with
  | S754_zero _ => Ok 0
  | S754_finite s m e =>
      let v := match e with
               | Zneg k => Zpos m / 2 ^ Zpos k
               | _ => Zpos m * 2 ^ e
               end in
      Ok (if s then - v else v)
  | _ => Raise ValueError
  end.

(** [round(x)]: to the nearest integer, ties to the even one. *)
Definition round (x : float) : result Z :=
  match Prim2SF x with
  | S754_zero _ => Ok 0
  | S754_finite s m e =>
      let v := match e with
               | Zneg k =>
                   let q := Zpos m / 2 ^ Zpos k in
                   let r := Zpos m mod 2 ^ Zpos k in
                   match 2 * r ?= 2 ^ Zpos k with
                   | Lt => q
                   | Gt => q + 1
                   | Eq => if Z.even q then q else q + 1
                   end
               | _ => Zpos m * 2 ^ e
               end in
      Ok (if s then - v else v)
  | _ => Raise ValueError
  end.

Record ArticleScore := mkArticle {
  overall_score : Z;
  source_score : Z;
  content_score : Z;
  article_bias_score : Z;
  article_is_clickbait : bool;
  article_flags : list string;
  source_details : SourceScore
}.

(** The doubles nearest to 0.7 and 0.3, which is what the literals
    denote in Python. *)
Definition weight_source : float := 0x1.6666666666666p-1.
Definition weight_content : float := 0x1.3333333333333p-2.

(** [source_score * 0.7 + content_quality * 0.3] *)
Definition blend (source_score content_quality : Z) : float :=
  (float_of_int source_score * weight_source
   + float_of_int content_quality * weight_content)%float.

Definition score_article (article : Article.t) : result ArticleScore :=
  let source_score_data := score_source (Article.get (Article.source article) "Unknown") in
  let source_score := score source_score_data in
  let bias_data := Bias.detect_bias article in
  let bias_score := Bias.bias_score bias_data in
  let content_quality := Z.max 0 (100 - bias_score) in
  overall_score <- int (blend source_score content_quality) ;;
  let overall_score :=
    if Bias.is_clickbait bias_data then Z.max 0 (overall_score - 20)
    else overall_score in
  let overall_score := Z.min 100 overall_score in
  Ok (mkArticle overall_score source_score content_quality bias_score
        (Bias.is_clickbait bias_data) (Bias.flags bias_data) source_score_data).

End Credibility.

(** ** [app.main]: the step run when the analyze button is pressed *)

Module App.

Inductive outcome :=
| NoArticlesFound          (* st.error(...); return *)
| AnalysisComplete (articles : list Article.t) (analysis : Timeline.Analysis)
    (timeline : list Timeline.Event).

Section Main.
(** The collaborators: the article processor, the analyzer and the
    slider value.  The credibility scores, which nothing in the
    timeline depends on, are not part of the outcome. *)
Variable process_articles : list Article.t -> list Article.t.
Variable analyze_event : list Article.t -> string -> Timeline.Analysis.
Variable max_articles : nat.
Variable list_of_set : list string -> list string.

Definition analyze (articles : list Article.t) (event_query : string) : outcome :=
  match articles with
  | [] => NoArticlesFound
  | _ =>
      let processed_articles := process_articles (firstn max_articles articles) in
      let analysis := analyze_event processed_articles event_query in
      let timeline := Timeline.generate_timeline list_of_set analysis processed_articles in
      AnalysisComplete processed_articles analysis timeline
  end.
End Main.
End App.

(** ** [TimelineGenerator.format_timeline_for_display] *)

Module Display.
Import Timeline.

Definition newline : string := String (ascii_of_nat 10) "".

Definition line (e : Event) : string :=
  let milestone_marker := if get_milestone e then "⭐ " else "  " in
  (milestone_marker ++ date e ++ " → " ++ event e)%string.

Definition format_timeline_for_display (timeline : list Event) : string :=
  PyStr.join newline (map line timeline).

End Display.

(** ** [CredibilityScorer.score_all_sources] and
       [get_authenticity_level] *)

Module Scorer.
Import Credibility.

Record Report := mkReport {
  average_authenticity : Z;
  source_scores : list (string * SourceScore);   (* a dict, in insertion order *)
  article_scores : list ArticleScore;
  total_sources : Z;
  reputable_sources_count : Z
}.

(** [source in source_scores] *)
Definition known (source : string) (source_scores : list (string * SourceScore)) : bool :=
  existsb (fun entry => String.eqb (fst entry) source) source_scores.

(** One turn of the loop over the articles; the state is
    [(source_scores, article_scores)]. *)
Definition score_one (st : list (string * SourceScore) * list ArticleScore)
    (article : Article.t)
  : result (list (string * SourceScore) * list ArticleScore) :=
  let (source_scores, article_scores) := st in
  let source := Article.get (Article.source article) "Unknown" in
  let source_scores :=
    if known source source_scores then source_scores
    else source_scores ++ [(source, score_source source)] in
  article_score <- score_article article ;;
  Ok (source_scores, article_scores ++ [article_score]).

Fixpoint score_each (articles : list Article.t)
    (st : list (string * SourceScore) * list ArticleScore)
  : result (list (string * SourceScore) * list ArticleScore) :=
  match articles with
  | [] => Ok st
  | article :: rest => st' <- score_one st article ;; score_each rest st'
  end.

Definition total (article_scores : list ArticleScore) : Z :=
  fold_right Z.add 0 (map overall_score article_scores).

(** [int(avg_score)], where [avg_score] is the integer 0 or the float
    quotient [sum / len] (the quotient of two integers below 2^53 is the
    quotient of their floats). *)
Definition average (article_scores : list ArticleScore) : result Z :=
  match article_scores with
  | [] => Ok 0
  | _ :: _ =>
      int (float_of_int (total article_scores)
           / float_of_int (Z.of_nat (List.length article_scores)))%float
  end.

Definition score_all_sources (articles : list Article.t) : result Report :=
  st <- score_each articles ([], []) ;;
  let (source_scores, article_scores) := st in
  average_authenticity <- average article_scores ;;
  Ok (mkReport average_authenticity source_scores article_scores
        (Z.of_nat (List.length source_scores))
        (Z.of_nat (List.length
                     (filter (fun entry => is_reputable (snd entry)) source_scores)))).

Definition get_authenticity_level (score : Z) : string :=
  if score >=? 80 then "High"
  else if score >=? 60 then "Medium"
  else if score >=? 40 then "Low"
  else "Very Low".

End Scorer.

(** ** [sorted] and [list.sort] with any key

    The stable sort by a key compared with [leb]. *)

Module PySort.
Section Sorted.
Variables A K : Type.
Variable leb : K -> K -> bool.
Variable key : A -> K.

Fixpoint insert (x : A) (l : list A) : list A :=
  match l with
  | [] => [x]
  | y :: l' => if leb (key x) (key y) then x :: l else y :: insert x l'
  end.

Definition sorted (l : list A) : list A := fold_right insert [] l.
End Sorted.
End PySort.

(** ** [AIAnalyzer.analyze_event] (the summaries) and
       [AIAnalyzer._basic_analysis] *)

Module Fallback.

(** One element of [article["extracted_dates"]] as [_basic_analysis]
    tells them apart: a dictionary (with or without a "date"), a string,
    or anything else. *)
Inductive date_info :=
| DateDict (date : option string)
| DateStr (s : string)
| DateOther.

(** The article summaries [analyze_event] hands to the analysis. *)
Record Summary := mkSummary {
  index : option Z;
  title : option string;
  source : option string;
  published_date : option string;
  content : option string;
  extracted_dates : option (list date_info)
}.

Definition summarize (i : nat) (article : Article.t) : Summary :=
  mkSummary
    (Some (Z.of_nat i))
    (Some (Article.get (Article.title article) ""))
    (Some (Article.get (Article.source article) ""))
    (Some (Article.get (Article.publishedAt article) ""))
    (Some (PyStr.take 2000 (Article.get (Article.cleaned_content article) "")))
    (Some (map (fun d => DateStr (Mention.date d))
             (Article.get (Article.extracted_dates article) []))).

(** [enumerate(articles[:10], 1)] *)
Definition summaries (articles : list Article.t) : list Summary :=
  map (fun p => summarize (fst p) (snd p))
    (combine (seq 1 (List.length (firstn 10 articles))) (firstn 10 articles)).

(** An entry of the timeline of an analysis, and the analysis. *)
Record Item := mkItem { date : string; event : string }.

Record Discrepancy := mkDiscrepancy {
  issue : string; sources : list string; details : string
}.

Record Result := mkResult {
  timeline : list Item;
  summary : string;
  key_highlights : list string;
  discrepancies : list Discrepancy;
  verified_facts : list string
}.

Definition date_of (d : date_info) : option string :=
  match d with
  | DateDict date => Some (Article.get date "")
  | DateStr s => Some s
  | DateOther => None
  end.

Definition reported (article : Summary) (date_str : string) : Item :=
  mkItem date_str
    ("News reported by " ++ Article.get (source article) "Unknown" ++ ": "
     ++ PyStr.take 100 (Article.get (title article) ""))%string.

(** One turn of the inner loop; the state is
    [(timeline_events, all_dates)]. *)
Definition visit (article : Summary) (st : list Item * list string)
    (d : date_info) : list Item * list string :=
  let (timeline_events, all_dates) := st in
  match date_of d with
  | None => st                                          (* continue *)
  | Some date_str =>
      if negb (String.eqb date_str "")
         && negb (existsb (String.eqb date_str) all_dates)
      then (timeline_events ++ [reported article date_str], date_str :: all_dates)
      else st
  end.

Definition visit_article (st : list Item * list string) (article : Summary)
  : list Item * list string :=
  fold_left (visit article) (Article.get (extracted_dates article) []) st.

Definition string_of_nat (n : nat) : string :=
  NilEmpty.string_of_uint (Nat.to_uint n).

Section Basic.
(** The order in which [set(...)] iterates. *)
Variable list_of_set : list string -> list string.

Definition _basic_analysis (event_query : string) (articles : list Summary) : Result :=
  let (timeline_events, _) := fold_left visit_article articles ([], []) in
  let timeline_events := PySort.sorted String.leb date timeline_events in
  let titles := map (fun a => Article.get (title a) "") (firstn 5 articles) in
  let summary :=
    ("Analysis of " ++ string_of_nat (List.length articles) ++ " articles about '"
     ++ event_query ++ "'. Key sources include: "
     ++ PyStr.join ", "
          (list_of_set (map (fun a => Article.get (source a) "Unknown")
                          (firstn 5 articles)))
     ++ ".")%string in
  mkResult timeline_events summary (firstn 5 titles) [] [].
End Basic.

(** The analysis as [generate_timeline] reads it. *)
Definition to_analysis (r : Result) : Timeline.Analysis :=
  Timeline.mkAnalysis
    (Some (map (fun it => Timeline.mkEntry (Some (date it)) (Some (event it)))
             (timeline r))).

End Fallback.

(** ** [utils.get_cache_key] *)

Module Utils.

(** [s.replace(old, new)] for a one-character [old] *)
Fixpoint replace (old : ascii) (new : string) (s : string) : string :=
  match s with
  | EmptyString => EmptyString
  | String c s' =>
      if Ascii.eqb c old then (new ++ replace old new s')%string
      else String c (replace old new s')
  end.

Definition double_quote : ascii := ascii_of_nat 34.

Definition get_cache_key (query : string) : string :=
  replace double_quote "" (replace "'" "" (replace " " "_" (PyStr.lower query))).

End Utils.

(** ** [NewsFetcher.fetch_articles]

    The network and the cache file are collaborators: what the cache
    holds for the query, and what the two fetchers return or raise, are
    arguments.  Writing the cache is not modelled. *)

Module Fetcher.

Record RawArticle := mkRaw {
  title : string;
  description : string;
  content : string;
  url : string;
  source : string;
  publishedAt : string;
  author : string
}.

(** [l[:n]], also for a negative [n] *)
Definition slice_to {A} (n : Z) (l : list A) : list A :=
  if 0 <=? n then firstn (Z.to_nat n) l
  else firstn (List.length l - Z.to_nat (- n)) l.

Section Fetch.
Variable max_articles : Z.

(** The loop over the GNews articles, which stops once there are
    [max_articles]. *)
Fixpoint add_new (existing_urls : list string) (gnews_articles : list RawArticle)
    (articles : list RawArticle) : list RawArticle :=
  match gnews_articles with
  | [] => articles
  | article :: rest =>
      if existsb (String.eqb (url article)) existing_urls
      then add_new existing_urls rest articles
      else
        let articles := articles ++ [article] in
        if Z.of_nat (List.length articles) >=? max_articles then articles  (* break *)
        else add_new existing_urls rest articles
  end.

Definition fetch_articles (cache_enabled : bool)
    (cached : option (list RawArticle))
    (newsapi_key : string)
    (newsapi gnews : result (list RawArticle)) : list RawArticle :=
  match (if cache_enabled then cached else None) with
  | Some (article :: rest) => article :: rest          (* a cache hit *)
  | _ =>
      let articles :=
        if String.eqb newsapi_key "" then []
        else match newsapi with
             | Ok newsapi_articles => newsapi_articles
             | Raise _ => []
             end in
      let articles :=
        if Z.of_nat (List.length articles) <? max_articles then
          match gnews with
          | Ok gnews_articles => add_new (map url articles) gnews_articles articles
          | Raise _ => articles
          end
        else articles in
      slice_to max_articles articles
  end.
End Fetch.

End Fetcher.

(** ** Vocabulary of the properties *)

Module Props.
Import Timeline.

(** [date_groups.get(k, [])] *)
Fixpoint assoc (k : string) (groups : list (string * list Event)) : list Event :=
  match groups with
  | [] => []
  | (k', es) :: rest => if String.eqb k' k then es else assoc k rest
  end.

(** Every group is non-empty and holds events of its own date. *)
Definition well_grouped (groups : list (string * list Event)) : Prop :=
  Forall (fun g => snd g <> [] /\ Forall (fun e => date e = fst g) (snd g)) groups.

Definition total_length (groups : list (string * list Event)) : nat :=
  fold_right (fun g n => (List.length (snd g) + n)%nat) 0%nat groups.

(** The raw entries of a list that carry a given date. *)
Definition sharing_date (d : string) (events : list Event) : list Event :=
  filter (has_date d) events.

(** The number of entries an event stands for: its "event_count" when
    it has one, otherwise 1. *)
Definition contributing (e : Event) : Z :=
  match event_count e with
  | Some n => n
  | None => 1
  end.

Definition sum (l : list Z) : Z := fold_right Z.add 0 l.

(** The milestone flag of the event at index [i] of [n] events, as
    [_identify_milestones] computes it. *)
Definition flag_at (n i : nat) (e : Event) : bool :=
  if (n <=? 3)%nat then true
  else if (i =? 0)%nat || (i =? n - 1)%nat then true
  else has_keyword e.

(** The milestone rule in the words of the specification. *)
Definition mentions_keyword (description : string) : Prop :=
  exists k pre post,
    In k milestone_keywords /\
    PyStr.lower description = (pre ++ k ++ post)%string.

Definition milestone_rule (n i : nat) (description : string) : Prop :=
  (n <= 3)%nat \/
  ((3 < n)%nat /\ (i = 0%nat \/ i = (n - 1)%nat \/ mentions_keyword description)).

(** One order in which [list(set(l))] may come out, for running the
    code on examples. *)
Definition some_set_order (l : list string) : list string :=
  nodup string_dec l.

(** The mentions attached to an article. *)
Definition mentions (a : Article.t) : list Mention.t :=
  Article.get (Article.extracted_dates a) [].

(** The clickbait words found in a lower-cased title, in list order. *)
Definition hits (title_lower : string) (words : list string) : list string :=
  filter (fun w => PyStr.contains w title_lower) words.

(** The scores [score_source] can give, the content qualities
    [detect_bias] can lead to, and the test that on a pair of them the
    float computation of [score_article] yields the integer part of the
    exact weighted sum. *)
Definition source_scores : list Z := [95; 88; 70; 40; 55].
Definition content_scores : list Z :=
  [100; 95; 90; 85; 80; 75; 70; 65; 60; 55; 50; 45].

Definition blend_agrees (s c : Z) : bool :=
  match Credibility.int (Credibility.blend s c) with
  | Ok v => v =? (7 * s + 3 * c) / 10
  | Raise _ => false
  end.

(** The mentions found in the text, and those made from the
    publication date. *)
Definition is_text (m : Mention.t) : bool := String.eqb (Mention.source m) "text".
Definition is_metadata (m : Mention.t) : bool :=
  String.eqb (Mention.source m) "metadata".
Definition texts (l : list Mention.t) : list Mention.t := filter is_text l.
Definition metas (l : list Mention.t) : list Mention.t := filter is_metadata l.

(** What holds of the local variables of [_extract_dates] throughout:
    the text mentions have pairwise distinct dates, all of them in
    [found_dates]; there is at most one metadata mention; there is no
    third kind. *)
Definition extract_inv (dates : list Mention.t) (found_dates : list string) : Prop :=
  NoDup (map Mention.date (texts dates)) /\
  (forall m, In m (texts dates) -> In (Mention.date m) found_dates) /\
  (List.length (metas dates) <= 1)%nat /\
  Forall (fun m => is_text m = true /\ is_metadata m = false \/
                   is_text m = false /\ is_metadata m = true) dates.

(** The groups after a run of appends, from any starting dictionary. *)
Definition grouped_from (g0 : list (string * list Event)) (events : list Event) :=
  fold_left (fun groups e => group_append (date e) e groups) events g0.

(** What collection has added to the AI entries so far: coverage
    entries of [articles], of pairwise distinct dates, none of them a
    date of [base]. *)
Definition extends (articles : list Article.t) (base evs : list Event) : Prop :=
  exists rest,
    evs = base ++ rest /\
    NoDup (map date rest) /\
    forall e, In e rest ->
      ~ In (date e) (map date base) /\
      exists a m, In a articles /\ In m (mentions a) /\
                  e = coverage a (Mention.date m).

(** The key [_sort_timeline] sorts by. *)
Definition sort_key (e : Event) : PyDate.datetime := parse_date (date e).
End Props.

(** ** Concrete inputs *)

Module Examples.
Import Timeline.

Definition raw (d description src : string) : Event :=
  mkEvent d description (Some src) None None.

(** Four events, the second of which mentions a keyword in capitals. *)
Definition four_events : list Event :=
  [raw "2024-01-01" "Mission planned" "ai_analysis";
   raw "2024-01-02" "Rocket LAUNCH day" "ai_analysis";
   raw "2024-01-03" "Quiet day" "ai_analysis";
   raw "2024-01-04" "Wrap up" "ai_analysis"].

(** Three raw entries, two of them of one date. *)
Definition three_raw : list Event :=
  [raw "2024-03-05" "Talks open" "ai_analysis";
   raw "2024-03-06" "Talks close" "Reuters";
   raw "2024-03-05" "Delegates arrive" "BBC News"].

(** An analysis with one timeline entry, and an article that mentions
    the same day. *)
Definition summit_analysis : Analysis :=
  mkAnalysis (Some [mkEntry (Some "2024-02-10") (Some "Summit signed")]).

Definition summit_article : Article.t :=
  Article.mk (Some "Leaders meet") (Some "BBC News") (Some "2024-02-10")
    (Some "Leaders meet.")
    (Some [Mention.mk "2024-02-10" (PyDate.midnight 2024 2 10)
             "Article publication date" "metadata"]).

(** An analysis with two entries of one date. *)
Definition double_analysis : Analysis :=
  mkAnalysis (Some [mkEntry (Some "2024-03-05") (Some "Talks open");
                    mkEntry (Some "2024-03-05") (Some "Delegates arrive")]).

(** An analysis whose only entry has a date the model wrote in words. *)
Definition vague_analysis : Analysis :=
  mkAnalysis (Some [mkEntry (Some "July 2023") (Some "Launch announced")]).

Definition empty_analysis : Analysis := mkAnalysis None.

(** An article to which the extractor attached no date. *)
Definition undated_article : Article.t :=
  Article.mk (Some "Opinion") (Some "My Cool Blog") (Some "") (Some "") (Some []).

(** An article of CNN without title or text. *)
Definition cnn_article : Article.t :=
  Article.mk (Some "") (Some "CNN") None (Some "") None.

(** Clickbait phrases in the text only. *)
Definition quiet_title_article : Article.t :=
  Article.mk (Some "Report") (Some "Reuters") None
    (Some "shocking secret exposed") None.

(** Three clickbait phrases and five exclamation marks in the title. *)
Definition loud_article : Article.t :=
  Article.mk (Some "SHOCKING secret EXPOSED!!!!!") (Some "My Cool Blog") None
    (Some "") None.

(** A run of the extractor on a text that repeats the publication day:
    what the collaborators return on it. *)
Definition treaty_text : string := "The treaty was signed on 2024-01-01 in Paris.".

Definition treaty_parse (base : PyDate.datetime) (s : string) : Extractor.parsed :=
  if String.eqb s "2024-01-01"
  then Extractor.Parsed (PyDate.midnight 2024 1 1) None
  else Extractor.NoDate.

Definition treaty_now (n : nat) : PyDate.datetime :=
  PyDate.mkdt 2024 6 1 12 0 0 (Z.of_nat n).

Definition treaty_finditer (p : Extractor.pattern) (text : string)
  : list Extractor.rematch :=
  match p with
  | Extractor.IsoDate =>
      if String.eqb text treaty_text then [Extractor.mkmatch 25 35 ""] else []
  | _ => []
  end.
End Examples.

(** The result of [generate_timeline] for zero articles tells the caller
    that there was no input: it differs from every result for some
    articles. *)
Definition signals_no_input
    (generate : Timeline.Analysis -> list Article.t -> list Timeline.Event) : Prop :=
  forall analysis articles,
    articles <> [] -> generate analysis [] <> generate analysis articles.

(** ** Vocabulary of the further properties *)

Module Extra.
Import Timeline.

(** Two datetimes that compare equal. *)
Definition same_time (a b : PyDate.datetime) : bool :=
  PyDate.leb a b && PyDate.leb b a.

(** The events whose date parses to the key [k]. *)
Definition same_day (k : PyDate.datetime) (e : Event) : bool :=
  same_time (Props.sort_key e) k.

(** The mentions an extractor run took from the text or the metadata at
    the datetime [k]. *)
Definition same_moment (k : PyDate.datetime) (m : Mention.t) : bool :=
  same_time (Mention.datetime m) k.

(** Everything of an event but its milestone flag. *)
Definition content (e : Event) : string * string * option string * option Z :=
  (date e, event e, source e, event_count e).

(** No line break in a string. *)
Definition one_line (s : string) : Prop :=
  PyStr.count (ascii_of_nat 10) s = 0.

(** What holds of a mention by the way it was made: its date string is
    the day of its datetime, that datetime is something the parser
    returned, and a metadata mention has the fixed context. *)
Definition made (parse : PyDate.datetime -> string -> Extractor.parsed)
    (m : Mention.t) : Prop :=
  Mention.date m = PyDate.strftime (Mention.datetime m) /\
  (exists base s tz, parse base s = Extractor.Parsed (Mention.datetime m) tz) /\
  (Mention.source m = "metadata" ->
   Mention.context m = "Article publication date").

(** The source name [score_article] and [score_all_sources] read. *)
Definition source_of (a : Article.t) : string :=
  Article.get (Article.source a) "Unknown".

(** The authenticity levels, from the worst to the best. *)
Definition rank (level : string) : Z :=
  if String.eqb level "High" then 3
  else if String.eqb level "Medium" then 2
  else if String.eqb level "Low" then 1
  else 0.

(** The test that for [n] scores adding up to [s] the float quotient
    truncates to the integer quotient. *)
Definition average_agrees (n s : nat) : bool :=
  match Credibility.int (Credibility.float_of_int (Z.of_nat s)
                         / Credibility.float_of_int (Z.of_nat n))%float with
  | Ok v => v =? Z.of_nat s / Z.of_nat n
  | Raise _ => false
  end.

(** The dictionary of source scores after a run over the names. *)
Definition add_source (source_scores : list (string * Credibility.SourceScore))
    (source : string) : list (string * Credibility.SourceScore) :=
  if Scorer.known source source_scores then source_scores
  else source_scores ++ [(source, Credibility.score_source source)].

Definition tally (sources : list string)
    (source_scores : list (string * Credibility.SourceScore))
  : list (string * Credibility.SourceScore) :=
  fold_left add_source sources source_scores.

(** The date entries of a summary. *)
Definition infos (doc : Fallback.Summary) : list Fallback.date_info :=
  Article.get (Fallback.extracted_dates doc) [].

(** A date string some summary of [docs] carries. *)
Definition carried (docs : list Fallback.Summary) (d : string) : Prop :=
  exists doc info,
    In doc docs /\ In info (infos doc) /\ Fallback.date_of info = Some d.

(** What holds of [(timeline_events, all_dates)] throughout
    [_basic_analysis]. *)
Definition basic_inv (docs : list Fallback.Summary)
    (st : list Fallback.Item * list string) : Prop :=
  NoDup (map Fallback.date (fst st)) /\
  (forall d, In d (map Fallback.date (fst st)) <-> In d (snd st)) /\
  Forall (fun it =>
            Fallback.date it <> "" /\ carried docs (Fallback.date it) /\
            exists doc, In doc docs /\ it = Fallback.reported doc (Fallback.date it))
    (fst st).

Definition string_le (a b : string) : Prop := String.leb a b = true.

(** The event collected for an entry of a fallback analysis. *)
Definition ai_entry (it : Fallback.Item) : Event :=
  mkEvent (Fallback.date it) (Fallback.event it) (Some "ai_analysis") None None.

(** What the NewsAPI fetcher contributes: nothing without a key or
    after an exception. *)
Definition from_newsapi (newsapi_key : string)
    (newsapi : result (list Fetcher.RawArticle)) : list Fetcher.RawArticle :=
  if String.eqb newsapi_key "" then []
  else match newsapi with
       | Ok l => l
       | Raise _ => []
       end.

Definition from_gnews (gnews : result (list Fetcher.RawArticle))
  : list Fetcher.RawArticle :=
  match gnews with
  | Ok l => l
  | Raise _ => []
  end.

(** The cache has nothing to offer. *)
Definition cache_miss (cache_enabled : bool)
    (cached : option (list Fetcher.RawArticle)) : Prop :=
  cache_enabled = false \/ cached = None \/ cached = Some [].

(** Two fetched articles. *)
Definition wire_article : Fetcher.RawArticle :=
  Fetcher.mkRaw "Talks open" "" "" "https://example.org/a" "Reuters" "2024-03-05" "".

Definition feed_article : Fetcher.RawArticle :=
  Fetcher.mkRaw "Talks close" "" "" "https://example.org/b" "BBC News" "2024-03-06" "".

(** The extra day of a leap year. *)
Definition leap_day (y : Z) : Z := if PyDate.is_leap y then 1 else 0.

(** A date string that [strptime] accepts. *)
Definition parses (e : Event) : Prop :=
  exists t, PyDate.strptime (date e) = Ok t.
End Extra.

(** * Properties *)

(** ** Sanity checks of the date functions *)

Example strptime_iso : PyDate.strptime "2024-03-05" = Ok (PyDate.midnight 2024 3 5).
Proof. reflexivity. Qed.
Example strptime_short : PyDate.strptime "2024-3-5" = Ok (PyDate.midnight 2024 3 5).
Proof. reflexivity. Qed.
Example strptime_feb30 : PyDate.strptime "2024-02-30" = Raise ValueError.
Proof. reflexivity. Qed.
Example strptime_word : PyDate.strptime "Unknown" = Raise ValueError.
Proof. reflexivity. Qed.
Example strftime_iso : PyDate.strftime (PyDate.midnight 2024 3 5) = "2024-03-05".
Proof. reflexivity. Qed.
Example toordinal_2024 : PyDate.toordinal (PyDate.midnight 2024 3 5) = 738950.
Proof. reflexivity. Qed.

(** ** Strings *)

Lemma prefix_app (p s : string) :
  prefix p s = true <-> exists post, s = (p ++ post)%string.
Proof.
  revert s; induction p as [|c p IH]; intros s.
  - split; [intros _; now exists s | intros _; now destruct s].
  - destruct s as [|d s]; simpl.
    + split; [discriminate | intros [post H]; discriminate].
    + destruct (Ascii.ascii_dec c d) as [->|Hcd].
      * rewrite IH. split; intros [post H]; exists post; congruence.
      * split; [discriminate | intros [post H]; congruence].
Qed.

(** [needle in hay] holds exactly when [needle] occurs inside [hay]. *)
Lemma contains_spec (needle hay : string) :
  PyStr.contains needle hay = true <->
  exists pre post, hay = (pre ++ needle ++ post)%string.
Proof.
  induction hay as [|c hay IH].
  - change (PyStr.contains needle "") with (prefix needle "" || false).
    rewrite orb_false_r, prefix_app. split.
    + intros [post H]. now exists ""%string, post.
    + intros [pre [post H]]. destruct pre; simpl in H; [now exists post | discriminate].
  - change (PyStr.contains needle (String c hay))
      with (prefix needle (String c hay) || PyStr.contains needle hay).
    rewrite orb_true_iff, prefix_app, IH. split.
    + intros [[post H] | [pre [post H]]].
      * now exists ""%string, post.
      * exists (String c pre), post. simpl. now rewrite H.
    + intros [pre [post H]]. destruct pre as [|c' pre]; simpl in H.
      * left. now exists post.
      * right. exists pre, post. congruence.
Qed.

Lemma any_in_spec (words : list string) (s : string) :
  PyStr.any_in words s = true <->
  exists w pre post, In w words /\ s = (pre ++ w ++ post)%string.
Proof.
  unfold PyStr.any_in. rewrite existsb_exists. split.
  - intros [w [Hin Hc]]. apply contains_spec in Hc as [pre [post H]].
    now exists w, pre, post.
  - intros [w [pre [post [Hin H]]]]. exists w. split; [assumption|].
    apply contains_spec. now exists pre, post.
Qed.

(** ** The order on datetimes and the stable sort *)

Lemma lex_leb_total (a b : list Z) :
  PyDate.lex_leb a b = false -> PyDate.lex_leb b a = true.
Proof.
  revert b; induction a as [|x a IH]; intros [|y b]; simpl; try easy.
  intros H. apply orb_false_iff in H as [Hlt H].
  apply Z.ltb_ge in Hlt.
  destruct (Z.ltb_spec y x) as [|Hge]; [reflexivity|]. simpl.
  assert (x = y) as -> by lia. rewrite Z.eqb_refl in *. simpl in *. now apply IH.
Qed.

Lemma lex_leb_trans (a b c : list Z) :
  PyDate.lex_leb a b = true -> PyDate.lex_leb b c = true -> PyDate.lex_leb a c = true.
Proof.
  revert b c; induction a as [|x a IH]; intros [|y b] [|z c]; simpl; try easy.
  intros H1 H2.
  apply orb_true_iff in H1 as [H1 | H1]; apply orb_true_iff in H2 as [H2 | H2].
  - apply Z.ltb_lt in H1, H2. apply orb_true_iff. left. apply Z.ltb_lt. lia.
  - apply andb_true_iff in H2 as [H2 _]. apply Z.eqb_eq in H2. subst.
    now rewrite H1.
  - apply andb_true_iff in H1 as [H1 _]. apply Z.eqb_eq in H1. subst.
    now rewrite H2.
  - apply andb_true_iff in H1 as [E1 H1]. apply andb_true_iff in H2 as [E2 H2].
    apply Z.eqb_eq in E1, E2. subst. rewrite Z.eqb_refl. simpl.
    rewrite (IH _ _ H1 H2). apply orb_true_r.
Qed.

Lemma lex_leb_cons x a y b :
  PyDate.lex_leb (x :: a) (y :: b) = true <->
  x < y \/ (x = y /\ PyDate.lex_leb a b = true).
Proof.
  simpl. rewrite orb_true_iff, andb_true_iff, Z.ltb_lt, Z.eqb_eq. reflexivity.
Qed.

Lemma le_trans (a b c : PyDate.datetime) :
  PyDate.le a b -> PyDate.le b c -> PyDate.le a c.
Proof. apply lex_leb_trans. Qed.

Lemma le_total (a b : PyDate.datetime) :
  PyDate.leb a b = false -> PyDate.le b a.
Proof. apply lex_leb_total. Qed.

Section SortFacts.
Variable A : Type.
Variable key : A -> PyDate.datetime.

Let le_key (x y : A) : Prop := PyDate.le (key x) (key y).

Lemma insert_perm (x : A) (l : list A) :
  Permutation (PyDate.insert key x l) (x :: l).
Proof.
  induction l as [|y l IH]; simpl; [reflexivity|].
  destruct (PyDate.leb (key x) (key y)); [reflexivity|].
  rewrite IH. apply perm_swap.
Qed.

Lemma sorted_perm (l : list A) : Permutation (PyDate.sorted key l) l.
Proof.
  induction l as [|x l IH]; simpl; [reflexivity|].
  unfold PyDate.sorted in *. simpl. rewrite insert_perm. now constructor.
Qed.

Lemma insert_sorted (x : A) (l : list A) :
  StronglySorted le_key l -> StronglySorted le_key (PyDate.insert key x l).
Proof.
  induction 1 as [|y l Hs IH Hall]; simpl.
  - repeat constructor.
  - destruct (PyDate.leb (key x) (key y)) eqn:E.
    + constructor; [now constructor|].
      constructor; [exact E|].
      eapply Forall_impl; [|exact Hall].
      intros z Hz. eapply le_trans; [exact E | exact Hz].
    + constructor; [exact IH|].
      eapply Permutation_Forall; [symmetry; apply insert_perm|].
      constructor; [now apply le_total | exact Hall].
Qed.

Lemma sorted_sorted (l : list A) : StronglySorted le_key (PyDate.sorted key l).
Proof.
  induction l as [|x l IH]; [constructor|].
  unfold PyDate.sorted in *. simpl. now apply insert_sorted.
Qed.
End SortFacts.

(** ** Grouping by date *)

Section GroupFacts.
Import Timeline Props.

Lemma group_append_assoc d e g k :
  assoc k (group_append d e g) =
  if String.eqb d k then assoc k g ++ [e] else assoc k g.
Proof.
  induction g as [|[k' es] rest IH]; simpl.
  - now destruct (String.eqb d k).
  - destruct (String.eqb_spec k' d) as [->|Hkd]; simpl.
    + now destruct (String.eqb d k).
    + rewrite IH. destruct (String.eqb_spec k' k) as [->|Hk]; [|reflexivity].
      destruct (String.eqb_spec d k) as [->|]; congruence.
Qed.

Lemma group_append_keys_in d e g :
  In d (map fst g) -> map fst (group_append d e g) = map fst g.
Proof.
  induction g as [|[k' es] rest IH]; simpl; [easy|].
  intros H. destruct (String.eqb_spec k' d) as [->|Hkd]; simpl; [reflexivity|].
  f_equal. apply IH. now destruct H.
Qed.

Lemma group_append_keys_new d e g :
  ~ In d (map fst g) -> map fst (group_append d e g) = map fst g ++ [d].
Proof.
  induction g as [|[k' es] rest IH]; simpl; [easy|].
  intros H. destruct (String.eqb_spec k' d) as [->|Hkd]; simpl.
  - exfalso. apply H. now left.
  - f_equal. apply IH. intros Hin. apply H. now right.
Qed.

Lemma group_append_nodup d e g :
  NoDup (map fst g) -> NoDup (map fst (group_append d e g)).
Proof.
  intros H. destruct (in_dec string_dec d (map fst g)) as [Hin|Hout].
  - now rewrite group_append_keys_in.
  - rewrite group_append_keys_new by assumption.
    apply NoDup_app; [assumption | repeat constructor; easy |].
    intros x Hx [<-|[]]. contradiction.
Qed.

Lemma group_append_well d e g :
  date e = d -> well_grouped g -> well_grouped (group_append d e g).
Proof.
  intros Hd. unfold well_grouped.
  induction 1 as [|[k' es] rest [Hne Hall] Hrest IH]; simpl.
  - repeat constructor; simpl; [discriminate | assumption].
  - simpl in *. destruct (String.eqb_spec k' d) as [->|Hkd].
    + constructor; [|assumption]. simpl. split.
      * destruct es; discriminate.
      * apply Forall_app. split; [assumption | now repeat constructor].
    + constructor; [now split | assumption].
Qed.

Lemma group_append_total d e g :
  total_length (group_append d e g) = S (total_length g).
Proof.
  induction g as [|[k' es] rest IH]; simpl; [reflexivity|].
  destruct (String.eqb k' d); simpl.
  - rewrite length_app. simpl. lia.
  - rewrite IH. lia.
Qed.

Lemma grouped_assoc events : forall g0 k,
  assoc k (grouped_from g0 events) = assoc k g0 ++ sharing_date k events.
Proof.
  induction events as [|e events IH]; intros g0 k; simpl.
  - now rewrite app_nil_r.
  - unfold grouped_from in *. rewrite IH, group_append_assoc.
    unfold has_date. destruct (String.eqb (date e) k); simpl.
    + now rewrite <- app_assoc.
    + reflexivity.
Qed.

Lemma grouped_nodup events : forall g0,
  NoDup (map fst g0) -> NoDup (map fst (grouped_from g0 events)).
Proof.
  induction events as [|e events IH]; intros g0 H; simpl; [assumption|].
  apply IH. now apply group_append_nodup.
Qed.

Lemma grouped_well events : forall g0,
  well_grouped g0 -> well_grouped (grouped_from g0 events).
Proof.
  induction events as [|e events IH]; intros g0 H; simpl; [assumption|].
  apply IH. now apply group_append_well.
Qed.

Lemma grouped_total events : forall g0,
  total_length (grouped_from g0 events) = (total_length g0 + List.length events)%nat.
Proof.
  induction events as [|e events IH]; intros g0; simpl; [lia|].
  unfold grouped_from in *. rewrite IH, group_append_total. lia.
Qed.

Lemma assoc_in g k es :
  NoDup (map fst g) -> In (k, es) g -> assoc k g = es.
Proof.
  induction g as [|[k' es'] rest IH]; simpl; [easy|].
  intros Hnd [Heq | Hin].
  - inversion Heq; subst. now rewrite String.eqb_refl.
  - inversion Hnd as [|? ? Hnotin Hnd']; subst.
    destruct (String.eqb_spec k' k) as [->|]; [|now apply IH].
    exfalso. apply Hnotin. change k with (fst (k, es)). now apply in_map.
Qed.

(** Each group of [date_groups events] holds, in order, the events of
    [events] that carry its date. *)
Lemma date_groups_spec events k es :
  In (k, es) (date_groups events) ->
  es = sharing_date k events /\ es <> [] /\ Forall (fun e => date e = k) es.
Proof.
  intros Hin.
  assert (Hnd : NoDup (map fst (date_groups events)))
    by (apply (@grouped_nodup events []); constructor).
  assert (Hw : well_grouped (date_groups events))
    by (apply (@grouped_well events []); constructor).
  split.
  - rewrite <- (assoc_in _ _ _ Hnd Hin).
    apply (grouped_assoc events [] k).
  - unfold well_grouped in Hw. rewrite Forall_forall in Hw.
    apply (Hw _ Hin).
Qed.
End GroupFacts.

(** ** Merging *)

Section MergeFacts.
Import Timeline Props.
Variable list_of_set : list string -> list string.

Lemma merge_group_dates g :
  snd g <> [] -> Forall (fun e => date e = fst g) (snd g) ->
  map date (merge_group list_of_set g) = [fst g].
Proof.
  destruct g as [k es]; simpl. intros Hne Hall.
  destruct es as [|e [|e' es]]; [congruence | | reflexivity].
  simpl. inversion Hall; subst. now f_equal.
Qed.

Lemma merge_dates events :
  map date (_merge_duplicate_dates list_of_set events) = map fst (date_groups events).
Proof.
  unfold _merge_duplicate_dates.
  assert (Hw : well_grouped (date_groups events))
    by (apply (@grouped_well events []); constructor).
  induction Hw as [|g rest [Hne Hall] _ IH]; simpl; [reflexivity|].
  rewrite map_app, IH, merge_group_dates by assumption. reflexivity.
Qed.

Lemma merge_nodup events :
  NoDup (map date (_merge_duplicate_dates list_of_set events)).
Proof.
  rewrite merge_dates. apply (@grouped_nodup events []). constructor.
Qed.

(** An event of the merged list is the only entry of its date, or the
    merge of the two or more entries of its date. *)
Lemma merge_in events ev :
  In ev (_merge_duplicate_dates list_of_set events) ->
  let es := sharing_date (date ev) events in
  es = [ev] \/
  ((2 <= List.length es)%nat /\ ev = merged_event list_of_set (date ev) es).
Proof.
  unfold _merge_duplicate_dates. rewrite in_flat_map.
  intros [[k es] [Hg Hev]].
  destruct (date_groups_spec _ _ _ Hg) as [Hes [Hne Hall]].
  simpl in Hev. destruct es as [|e [|e' es]]; [congruence| |].
  - destruct Hev as [<-|[]]. inversion Hall; subst. left. now symmetry.
  - destruct Hev as [<-|[]]. simpl. right. rewrite <- Hes. simpl. split; [lia | reflexivity].
Qed.

Lemma merge_group_sum g :
  Forall (fun e => event_count e = None) (snd g) ->
  sum (map contributing (merge_group list_of_set g)) = Z.of_nat (List.length (snd g)).
Proof.
  destruct g as [k es]; simpl. intros Hall.
  destruct es as [|e [|e' es]]; unfold contributing; simpl; try lia.
  inversion Hall as [|? ? He _]; subst. rewrite He. reflexivity.
Qed.

Lemma merge_groups_sum groups :
  Forall (fun g => Forall (fun e => event_count e = None) (snd g)) groups ->
  sum (map contributing (flat_map (merge_group list_of_set) groups))
  = Z.of_nat (total_length groups).
Proof.
  induction 1 as [|g rest Hg _ IH]; simpl; [reflexivity|].
  rewrite map_app. unfold sum in *. rewrite fold_right_app.
  assert (Hacc : forall l a, fold_right Z.add a l = fold_right Z.add 0 l + a).
  { induction l as [|x l IHl]; intros a; simpl; [lia | rewrite IHl; lia]. }
  rewrite Hacc, IH. fold (sum (map contributing (merge_group list_of_set g))).
  rewrite (@merge_group_sum g Hg). unfold total_length. simpl. lia.
Qed.

Lemma merge_sum events :
  Forall (fun e => event_count e = None) events ->
  sum (map contributing (_merge_duplicate_dates list_of_set events))
  = Z.of_nat (List.length events).
Proof.
  intros Hall. unfold _merge_duplicate_dates.
  rewrite merge_groups_sum.
  - unfold date_groups. change (fold_left _ events []) with (grouped_from [] events).
    now rewrite grouped_total.
  - rewrite Forall_forall. intros [k es] Hin.
    destruct (date_groups_spec _ _ _ Hin) as [-> _]. simpl.
    unfold sharing_date. rewrite Forall_forall in *.
    intros e He. apply filter_In in He as [He _]. now apply Hall.
Qed.
End MergeFacts.

(** ** The milestone pass *)

Section MilestoneFacts.
Import Timeline Props.

Lemma update_nth f : forall l i j,
  nth_error (update i f l) j =
  if (i =? j)%nat then option_map f (nth_error l j) else nth_error l j.
Proof.
  induction l as [|x l IH]; intros i j.
  - destruct i, j; simpl; try reflexivity; now destruct (i =? j)%nat.
  - destruct i, j; simpl; try reflexivity. apply IH.
Qed.

Lemma update_each f : forall idxs l j,
  NoDup idxs ->
  nth_error (fold_left (fun evs i => update i f evs) idxs l) j =
  if existsb (Nat.eqb j) idxs then option_map f (nth_error l j)
  else nth_error l j.
Proof.
  induction idxs as [|a idxs IH]; intros l j Hnd; simpl; [reflexivity|].
  inversion Hnd as [|? ? Hnotin Hnd']; subst.
  rewrite IH by assumption. rewrite update_nth.
  destruct (Nat.eqb_spec j a) as [->|Hja]; simpl.
  - rewrite Nat.eqb_refl.
    destruct (existsb (Nat.eqb a) idxs) eqn:E; [|reflexivity].
    exfalso. apply existsb_exists in E as [x [Hx Hax]].
    apply Nat.eqb_eq in Hax. subst. contradiction.
  - destruct (Nat.eqb_spec a j); [congruence | reflexivity].
Qed.

(** The event at each index after the pass. *)
Lemma identify_nth events i :
  nth_error (_identify_milestones events) i =
  option_map (fun e => set_milestone (flag_at (List.length events) i e) e)
    (nth_error events i).
Proof.
  unfold _identify_milestones, flag_at.
  destruct (Nat.leb_spec (List.length events) 3) as [Hle|Hgt].
  - rewrite nth_error_map. reflexivity.
  - rewrite update_each by apply seq_NoDup.
    rewrite !update_nth.
    destruct (existsb (Nat.eqb i) (seq 1 (List.length events - 2))) eqn:E.
    + apply existsb_exists in E as [x [Hx Hix]]. apply Nat.eqb_eq in Hix. subst x.
      apply in_seq in Hx.
      destruct (Nat.eqb_spec (List.length events - 1) i); [lia|].
      destruct (Nat.eqb_spec 0 i); [lia|].
      destruct (Nat.eqb_spec i 0); [lia|].
      destruct (Nat.eqb_spec i (List.length events - 1)); [lia|].
      reflexivity.
    + assert (Hout : ~ In i (seq 1 (List.length events - 2))).
      { intros Hin. apply Bool.not_true_iff_false in E. apply E.
        apply existsb_exists. exists i. split; [assumption | apply Nat.eqb_refl]. }
      rewrite in_seq in Hout.
      destruct (nth_error events i) as [e|] eqn:Hi.
      * assert (i < List.length events)%nat
          by (apply nth_error_Some; congruence).
        destruct (Nat.eqb_spec (List.length events - 1) i) as [Ha|Ha];
          destruct (Nat.eqb_spec 0 i) as [Hb|Hb];
          destruct (Nat.eqb_spec i 0) as [Hc|Hc];
          destruct (Nat.eqb_spec i (List.length events - 1)) as [Hd|Hd];
          simpl; rewrite ?Hi; simpl; try reflexivity; lia.
      * destruct (Nat.eqb (List.length events - 1) i), (Nat.eqb 0 i);
          simpl; rewrite ?Hi; reflexivity.
Qed.

Lemma identify_field {B} (f : Event -> B) events :
  (forall b e, f (set_milestone b e) = f e) ->
  map f (_identify_milestones events) = map f events.
Proof.
  intros Hf. apply nth_error_ext. intros n.
  rewrite !nth_error_map, identify_nth.
  destruct (nth_error events n); simpl; [now rewrite Hf | reflexivity].
Qed.

Lemma identify_in events e :
  In e (_identify_milestones events) ->
  exists e0 b, In e0 events /\ e = set_milestone b e0.
Proof.
  intros Hin. apply In_nth_error in Hin as [n Hn].
  rewrite identify_nth in Hn.
  destruct (nth_error events n) as [e0|] eqn:E; [|discriminate].
  simpl in Hn. inversion Hn; subst.
  exists e0, (flag_at (List.length events) n e0). split; [|reflexivity].
  eapply nth_error_In; eassumption.
Qed.
End MilestoneFacts.

(** ** Collection *)

Section CollectFacts.
Import Timeline Props.

Lemma existsb_has_date d evs :
  existsb (has_date d) evs = true <-> In d (map date evs).
Proof.
  rewrite existsb_exists, in_map_iff. unfold has_date.
  split; intros [e H]; exists e.
  - destruct H as [Hin H]. apply String.eqb_eq in H. now split.
  - destruct H as [H Hin]. split; [assumption | now apply String.eqb_eq].
Qed.

Lemma ai_events_no_count analysis :
  Forall (fun e => event_count e = None) (ai_events analysis).
Proof.
  unfold ai_events. destruct (timeline analysis) as [entries|]; [|constructor].
  rewrite Forall_forall. intros e He. apply in_flat_map in He as [en [_ He]].
  unfold ai_event in He.
  destruct (entry_date en), (entry_event en); simpl in He; try easy.
  destruct He as [<-|[]]. reflexivity.
Qed.

Lemma add_date_extends articles base a m evs :
  In a articles -> In m (mentions a) ->
  extends articles base evs -> extends articles base (add_date a evs m).
Proof.
  intros Ha Hm [rest [-> [Hnd Hrest]]]. unfold add_date.
  destruct (existsb (has_date (Mention.date m)) (base ++ rest)) eqn:E.
  - now exists rest.
  - assert (Hout : ~ In (Mention.date m) (map date (base ++ rest))).
    { rewrite <- existsb_has_date. congruence. }
    rewrite map_app, in_app_iff in Hout.
    exists (rest ++ [coverage a (Mention.date m)]). repeat split.
    + now rewrite app_assoc.
    + rewrite map_app. simpl. apply NoDup_app; [assumption | repeat constructor; easy |].
      intros x Hx [<-|[]]. tauto.
    + apply in_app_iff in H as [H | [<-|[]]]; [now apply Hrest | simpl; tauto].
    + apply in_app_iff in H as [H | [<-|[]]]; [now apply Hrest |].
      now exists a, m.
Qed.

Lemma add_dates_extends articles base a : forall ms evs,
  In a articles -> incl ms (mentions a) ->
  extends articles base evs ->
  extends articles base (fold_left (add_date a) ms evs).
Proof.
  induction ms as [|m ms IH]; intros evs Ha Hincl H; simpl; [assumption|].
  apply IH; [assumption | intros x Hx; apply Hincl; now right |].
  apply add_date_extends; [assumption | apply Hincl; now left | assumption].
Qed.

Lemma collect_extends articles base : forall arts evs,
  incl arts articles ->
  extends articles base evs ->
  extends articles base (fold_left add_article arts evs).
Proof.
  induction arts as [|a arts IH]; intros evs Hincl H; simpl; [assumption|].
  apply IH; [intros x Hx; apply Hincl; now right|].
  apply add_dates_extends; [apply Hincl; now left | apply incl_refl | assumption].
Qed.

(** Dates once collected stay, and every mention's date gets collected. *)
Lemma add_date_keeps a m evs d :
  In d (map date evs) -> In d (map date (add_date a evs m)).
Proof.
  unfold add_date. destruct (existsb _ evs); [easy|].
  rewrite map_app, in_app_iff. now left.
Qed.

Lemma add_date_adds a m evs :
  In (Mention.date m) (map date (add_date a evs m)).
Proof.
  unfold add_date. destruct (existsb _ evs) eqn:E.
  - now apply existsb_has_date.
  - rewrite map_app, in_app_iff. right. now left.
Qed.

Lemma add_dates_keeps a d : forall ms evs,
  In d (map date evs) -> In d (map date (fold_left (add_date a) ms evs)).
Proof.
  induction ms as [|m ms IH]; intros evs H; simpl; [assumption|].
  apply IH. now apply add_date_keeps.
Qed.

Lemma add_dates_adds a m : forall ms evs,
  In m ms -> In (Mention.date m) (map date (fold_left (add_date a) ms evs)).
Proof.
  induction ms as [|m' ms IH]; intros evs Hin; [destruct Hin|].
  destruct Hin as [<-|Hin]; simpl.
  - apply add_dates_keeps, add_date_adds.
  - now apply IH.
Qed.

Lemma collect_keeps d : forall arts evs,
  In d (map date evs) -> In d (map date (fold_left add_article arts evs)).
Proof.
  induction arts as [|a arts IH]; intros evs H; simpl; [assumption|].
  apply IH. now apply add_dates_keeps.
Qed.

Lemma collect_adds a m : forall arts evs,
  In a arts -> In m (mentions a) ->
  In (Mention.date m) (map date (fold_left add_article arts evs)).
Proof.
  induction arts as [|a' arts IH]; intros evs Hin Hm; [destruct Hin|].
  destruct Hin as [<-|Hin]; simpl.
  - apply collect_keeps. now apply add_dates_adds.
  - now apply IH.
Qed.

Lemma collect_no_count analysis articles :
  Forall (fun e => event_count e = None) (collect analysis articles).
Proof.
  destruct (@collect_extends articles (ai_events analysis) articles (ai_events analysis))
    as [rest [Heq [_ Hrest]]].
  - apply incl_refl.
  - exists []. rewrite app_nil_r. repeat split; [constructor | easy | easy].
  - unfold collect. rewrite Heq. apply Forall_app. split.
    + apply ai_events_no_count.
    + rewrite Forall_forall. intros e He.
      destruct (Hrest e He) as [_ [a [m [_ [_ ->]]]]]. reflexivity.
Qed.
End CollectFacts.

(** ** The consolidated timeline *)

Lemma StronglySorted_map {A} (key : A -> PyDate.datetime) (l : list A) :
  StronglySorted (fun x y => PyDate.le (key x) (key y)) l ->
  StronglySorted PyDate.le (map key l).
Proof.
  induction 1 as [|x l _ IH Hall]; simpl; constructor; [assumption|].
  rewrite Forall_forall in *. intros t Ht.
  apply in_map_iff in Ht as [y [<- Hy]]. now apply Hall.
Qed.

(** A date that parses is never before [datetime.min]. *)
Lemma parse_date_min (date_str : string) :
  PyDate.le PyDate.datetime_min (Timeline.parse_date date_str).
Proof.
  unfold Timeline.parse_date, PyDate.strptime.
  destruct (PyDate.re_match date_str) as [[[[y m] d] [|c rest]]|]; try reflexivity.
  destruct (PyDate.valid_date y m d) eqn:V; [|reflexivity].
  unfold PyDate.valid_date in V.
  repeat (apply andb_true_iff in V as [V ?]).
  repeat match goal with
         | Hle : (_ <=? _) = true |- _ => apply Z.leb_le in Hle
         end.
  unfold PyDate.le, PyDate.leb, PyDate.datetime_min, PyDate.midnight, PyDate.fields.
  cbn [PyDate.year PyDate.month PyDate.day PyDate.hour PyDate.minute
       PyDate.second PyDate.microsecond].
  rewrite !lex_leb_cons.
  destruct (Z.eq_dec 1 y); [right; split; [assumption|] | left; lia].
  destruct (Z.eq_dec 1 m); [right; split; [assumption|] | left; lia].
  destruct (Z.eq_dec 1 d); [right; split; [assumption|] | left; lia].
  repeat (right; split; [reflexivity|]). reflexivity.
Qed.

(** C1.  For every analysis and article list, the timeline returned by
    [generate_timeline] has pairwise distinct date strings and is in
    non-decreasing order of parsed date, where a date string that
    [strptime] rejects counts as [datetime.min], the least key there is. *)
Theorem C1_timeline_distinct_and_sorted
    (list_of_set : list string -> list string)
    (analysis : Timeline.Analysis) (articles : list Article.t) :
  let out := Timeline.generate_timeline list_of_set analysis articles in
  NoDup (map Timeline.date out) /\
  StronglySorted PyDate.le (map Props.sort_key out) /\
  (forall e, In e out ->
     (forall x, PyDate.strptime (Timeline.date e) = Raise x ->
                Props.sort_key e = PyDate.datetime_min) /\
     PyDate.le PyDate.datetime_min (Props.sort_key e)).
Proof.
  intros out. subst out. unfold Timeline.generate_timeline.
  set (merged := Timeline._merge_duplicate_dates list_of_set _).
  repeat split.
  - rewrite identify_field by reflexivity.
    apply (Permutation_NoDup (l := map Timeline.date merged)).
    + apply Permutation_map. symmetry. apply sorted_perm.
    + apply merge_nodup.
  - rewrite identify_field by reflexivity.
    unfold Timeline._sort_timeline. apply StronglySorted_map. apply sorted_sorted.
  - intros x Hx. unfold Props.sort_key, Timeline.parse_date. now rewrite Hx.
  - apply parse_date_min.
Qed.

(** C2.  After the milestone pass the event at index [i] is the input
    event with its flag set, and the flag is true exactly under the rule:
    at most three events, or else first, last, or a description whose
    lower-case form contains one of the twelve keywords. *)
Theorem C2_milestone_annotation
    (events : list Timeline.Event) (i : nat) (e : Timeline.Event) :
  nth_error events i = Some e ->
  exists b,
    nth_error (Timeline._identify_milestones events) i
      = Some (Timeline.set_milestone b e) /\
    (b = true <->
     Props.milestone_rule (List.length events) i (Timeline.event e)).
Proof.
  intros Hi. exists (Props.flag_at (List.length events) i e). split.
  - rewrite identify_nth, Hi. reflexivity.
  - unfold Props.flag_at, Props.milestone_rule, Props.mentions_keyword.
    destruct (Nat.leb_spec (List.length events) 3) as [Hle|Hgt].
    + split; [now left | reflexivity].
    + destruct (Nat.eqb_spec i 0) as [->|H0]; simpl.
      * split; [intros _; right; split; [lia | now left] | reflexivity].
      * destruct (Nat.eqb_spec i (List.length events - 1)) as [->|Hn]; simpl.
        -- split; [intros _; right; split; [lia | right; now left] | reflexivity].
        -- unfold Timeline.has_keyword. rewrite any_in_spec. split.
           ++ intros [w [pre [post [Hw Heq]]]].
              right. split; [lia|]. right. right. now exists w, pre, post.
           ++ intros [Hle | [_ [-> | [-> | [w [pre [post [Hw Heq]]]]]]]];
                try lia; try congruence.
              now exists w, pre, post.
Qed.

(** C3.  Collection puts the AI-analysis entries first; the coverage
    entries after them come from mentions of the articles, have pairwise
    distinct dates and never a date of an AI-analysis entry; every mention
    date is collected; so for a date of an AI-analysis entry the collected
    entries of that date are the AI-analysis entries alone. *)
Theorem C3_collect_first_writer_wins
    (analysis : Timeline.Analysis) (articles : list Article.t) :
  exists coverage_entries,
    Timeline.collect analysis articles
      = Timeline.ai_events analysis ++ coverage_entries /\
    NoDup (map Timeline.date coverage_entries) /\
    (forall e, In e coverage_entries ->
       ~ In (Timeline.date e) (map Timeline.date (Timeline.ai_events analysis)) /\
       exists a m, In a articles /\ In m (Props.mentions a) /\
                   e = Timeline.coverage a (Mention.date m)) /\
    (forall a m, In a articles -> In m (Props.mentions a) ->
       In (Mention.date m) (map Timeline.date (Timeline.collect analysis articles))) /\
    (forall d, In d (map Timeline.date (Timeline.ai_events analysis)) ->
       Props.sharing_date d (Timeline.collect analysis articles)
       = Props.sharing_date d (Timeline.ai_events analysis)).
Proof.
  destruct (@collect_extends articles (Timeline.ai_events analysis) articles
              (Timeline.ai_events analysis))
    as [rest [Heq [Hnd Hrest]]].
  - apply incl_refl.
  - exists []. rewrite app_nil_r. repeat split; [constructor | easy | easy].
  - exists rest. fold (Timeline.collect analysis articles) in Heq.
    repeat split; try assumption.
    + now apply Hrest.
    + now apply Hrest.
    + intros a m Ha Hm. unfold Timeline.collect.
      apply collect_adds with (a := a); assumption.
    + intros d Hd. rewrite Heq. unfold Props.sharing_date.
      rewrite filter_app.
      assert (Hnone : filter (Timeline.has_date d) rest = []).
      { destruct (filter (Timeline.has_date d) rest) as [|e l] eqn:E; [reflexivity|].
        assert (He : In e (filter (Timeline.has_date d) rest)) by (rewrite E; now left).
        apply filter_In in He as [He Hdate].
        unfold Timeline.has_date in Hdate. apply String.eqb_eq in Hdate.
        destruct (Hrest e He) as [Hout _]. rewrite Hdate in Hout. contradiction. }
      rewrite Hnone. apply app_nil_r.
Qed.

Lemma C2_milestone_annotation_witness :
  exists b,
    nth_error (Timeline._identify_milestones Examples.four_events) 1
      = Some (Timeline.set_milestone b
                (Examples.raw "2024-01-02" "Rocket LAUNCH day" "ai_analysis")) /\
    (b = true <-> Props.milestone_rule 4 1 "Rocket LAUNCH day").
Proof.
  exact (@C2_milestone_annotation Examples.four_events 1 _ eq_refl).
Defined.

Example milestones_of_four :
  map Timeline.is_milestone (Timeline._identify_milestones Examples.four_events)
  = [Some true; Some true; Some false; Some true].
Proof. reflexivity. Qed.

Example scenario_C :
  Timeline.generate_timeline Props.some_set_order
    Examples.summit_analysis [Examples.summit_article]
  = [Timeline.mkEvent "2024-02-10" "Summit signed" (Some "ai_analysis") None (Some true)].
Proof. reflexivity. Qed.

Example merge_three_raw :
  Timeline._merge_duplicate_dates Props.some_set_order Examples.three_raw
  = [Timeline.mkEvent "2024-03-05" "Talks open | Delegates arrive"
       (Some "ai_analysis, BBC News") (Some 2) None;
     Examples.raw "2024-03-06" "Talks close" "Reuters"].
Proof. reflexivity. Qed.

(** C4 (as stated) fails: the one event of this timeline, made from one
    raw entry, has no "event_count" at all. *)
Lemma C4_counterexample :
  ~ (forall e,
       In e (Timeline.generate_timeline Props.some_set_order
               Examples.summit_analysis []) ->
       exists n, Timeline.event_count e = Some n /\ 1 <= n).
Proof.
  intros H.
  destruct (H (Timeline.mkEvent "2024-02-10" "Summit signed" (Some "ai_analysis")
                 None (Some true))) as [n [Hn _]].
  - left. reflexivity.
  - discriminate.
Qed.

(** C4 (amended).  For every event of the consolidated output, with [n]
    the number of raw collected entries of its date: [n] is at least 1;
    when [n] is 1 the event has no "event_count"; otherwise its
    "event_count" is [n]. *)
Theorem C4_event_count
    (list_of_set : list string -> list string)
    (analysis : Timeline.Analysis) (articles : list Article.t)
    (e : Timeline.Event) :
  In e (Timeline.generate_timeline list_of_set analysis articles) ->
  let n := List.length (Props.sharing_date (Timeline.date e)
                          (Timeline.collect analysis articles)) in
  (1 <= n)%nat /\
  Timeline.event_count e = if (n =? 1)%nat then None else Some (Z.of_nat n).
Proof.
  unfold Timeline.generate_timeline. intros Hin.
  apply identify_in in Hin as [e0 [b [Hin ->]]].
  unfold Timeline._sort_timeline in Hin.
  apply (Permutation_in _ (sorted_perm _ _)) in Hin.
  apply merge_in in Hin. simpl in *.
  destruct Hin as [Hone | [Hmany Heq]].
  - rewrite Hone. simpl. split; [lia|].
    assert (He0 : In e0 (Props.sharing_date (Timeline.date e0)
                           (Timeline.collect analysis articles)))
      by (rewrite Hone; now left).
    apply filter_In in He0 as [He0 _].
    pose proof (collect_no_count analysis articles) as Hnone.
    rewrite Forall_forall in Hnone. now apply Hnone.
  - split; [lia|].
    destruct (Nat.eqb_spec
                (List.length (Props.sharing_date (Timeline.date e0)
                                (Timeline.collect analysis articles))) 1); [lia|].
    rewrite Heq at 1. reflexivity.
Qed.

Lemma C4_event_count_witness :
  (1 <= 2)%nat /\
  Timeline.event_count
    (Timeline.mkEvent "2024-03-05" "Talks open | Delegates arrive"
       (Some "ai_analysis") (Some 2) (Some true))
  = Some 2.
Proof.
  apply (@C4_event_count Props.some_set_order Examples.double_analysis []
           (Timeline.mkEvent "2024-03-05" "Talks open | Delegates arrive"
              (Some "ai_analysis") (Some 2) (Some true))).
  left. reflexivity.
Defined.

(** C10.  Merging by date conserves the number of entries: over a list of
    collected entries (none of which has an "event_count" yet), the
    contributing counts of the merged events add up to the length of the
    list. *)
Theorem C10_merge_conserves_count
    (list_of_set : list string -> list string) (events : list Timeline.Event) :
  Forall (fun e => Timeline.event_count e = None) events ->
  Props.sum (map Props.contributing
               (Timeline._merge_duplicate_dates list_of_set events))
  = Z.of_nat (List.length events).
Proof. apply merge_sum. Qed.

Lemma C10_merge_conserves_count_witness :
  Props.sum (map Props.contributing
               (Timeline._merge_duplicate_dates Props.some_set_order Examples.three_raw))
  = 3.
Proof.
  apply (@C10_merge_conserves_count Props.some_set_order Examples.three_raw).
  repeat constructor.
Defined.

(** Whatever was collected by [generate_timeline] is such a list. *)
Corollary generate_conserves_count list_of_set analysis articles :
  Props.sum (map Props.contributing
               (Timeline._merge_duplicate_dates list_of_set
                  (Timeline.collect analysis articles)))
  = Z.of_nat (List.length (Timeline.collect analysis articles)).
Proof. apply merge_sum, collect_no_count. Qed.

(** ** Timeline statistics *)

Lemma mapM_raise {A B} (f : A -> result B) (l : list A) (a : A) (x : exn) :
  In a l -> f a = Raise x -> exists x', mapM f l = Raise x'.
Proof.
  induction l as [|y l IH]; intros Hin Hf; [destruct Hin|].
  simpl. destruct Hin as [->|Hin].
  - rewrite Hf. now exists x.
  - destruct (f y); simpl; [|now eexists].
    destruct (IH Hin Hf) as [x' ->]. now exists x'.
Qed.

(** [get_timeline_stats] raises as soon as one date of the timeline does
    not parse; [_sort_timeline] catches the same exception. *)
Lemma stats_raise_on_unparseable (timeline : list Timeline.Event)
    (e : Timeline.Event) (x : exn) :
  In e timeline -> PyDate.strptime (Timeline.date e) = Raise x ->
  exists x', Timeline.get_timeline_stats timeline = Raise x'.
Proof.
  intros Hin Hx. unfold Timeline.get_timeline_stats.
  destruct timeline as [|first rest]; [destruct Hin|].
  destruct (mapM_raise (fun e => PyDate.strptime (Timeline.date e)) _ _ Hin Hx)
    as [x' ->].
  now exists x'.
Qed.

(** C8.  The timeline that [generate_timeline] returns for an analysis
    whose entry is dated "July 2023" keeps that entry, and
    [get_timeline_stats] raises [ValueError] on it instead of returning
    statistics. *)
Theorem C8_stats_raise_on_generated_timeline :
  Timeline.generate_timeline Props.some_set_order Examples.vague_analysis []
  = [Timeline.mkEvent "July 2023" "Launch announced" (Some "ai_analysis")
       None (Some true)] /\
  Timeline.get_timeline_stats
    (Timeline.generate_timeline Props.some_set_order Examples.vague_analysis [])
  = Raise ValueError.
Proof. split; reflexivity. Qed.

Example stats_of_parseable :
  Timeline.get_timeline_stats
    (Timeline._identify_milestones Examples.four_events)
  = Ok (Timeline.mkStats 4 "2024-01-01 to 2024-01-04" 3 (Some 3)).
Proof. reflexivity. Qed.

(** ** Zero articles *)

(** C9 (as stated) fails: for zero articles [generate_timeline] returns
    the ordinary empty timeline, the very result it returns for an
    article without dates. *)
Lemma C9_counterexample :
  ~ signals_no_input (Timeline.generate_timeline Props.some_set_order).
Proof.
  intros H.
  apply (H Examples.empty_analysis [Examples.undated_article]).
  - discriminate.
  - reflexivity.
Qed.

(** C9 (amended).  The check for zero articles is made by the caller:
    [app.main] reports that no articles were found and stops before the
    core runs, and it runs the core on every non-empty list.
    [generate_timeline] itself, given zero articles, returns the timeline
    of the AI-analysis entries alone, which is empty when the analysis has
    none. *)
Theorem C9_no_articles_checked_by_caller
    (process_articles : list Article.t -> list Article.t)
    (analyze_event : list Article.t -> string -> Timeline.Analysis)
    (max_articles : nat)
    (list_of_set : list string -> list string) :
  (forall event_query,
     App.analyze process_articles analyze_event max_articles list_of_set
       [] event_query = App.NoArticlesFound) /\
  (forall a articles event_query,
     App.analyze process_articles analyze_event max_articles list_of_set
       (a :: articles) event_query <> App.NoArticlesFound) /\
  (forall analysis,
     Timeline.generate_timeline list_of_set analysis []
     = Timeline._identify_milestones
         (Timeline._sort_timeline
            (Timeline._merge_duplicate_dates list_of_set
               (Timeline.ai_events analysis)))) /\
  (forall analysis,
     Timeline.ai_events analysis = [] ->
     Timeline.generate_timeline list_of_set analysis [] = []).
Proof.
  repeat split.
  - intros a articles q. simpl. discriminate.
  - intros analysis H. unfold Timeline.generate_timeline, Timeline.collect.
    simpl. rewrite H. reflexivity.
Qed.

(** ** Bias detection *)

Section BiasFacts.
Import Bias Props.

Lemma check_words title_lower : forall words score flags,
  fold_left (check_word title_lower) words (score, flags)
  = (score + 10 * Z.of_nat (List.length (hits title_lower words)),
     flags ++ map clickbait_flag (hits title_lower words)).
Proof.
  induction words as [|w words IH]; intros score flags;
    cbn -[Z.mul Z.add Z.of_nat].
  - now rewrite Z.add_0_r, app_nil_r.
  - destruct (PyStr.contains w title_lower); cbn -[Z.mul Z.add Z.of_nat].
    + rewrite IH, <- app_assoc. f_equal. unfold hits. lia.
    + apply IH.
Qed.

Lemma hits_bound title_lower :
  (List.length (hits title_lower clickbait_words) <= 5)%nat.
Proof. apply (filter_length_le _ clickbait_words). Qed.
End BiasFacts.

(** The closed form of the bias score. *)
Lemma detect_bias_form (article : Article.t) :
  exists (found : list string) (loud : bool),
    (List.length found <= 5)%nat /\
    Bias.bias_score (Bias.detect_bias article)
    = 10 * Z.of_nat (List.length found) + (if loud then 5 else 0).
Proof.
  set (title := Article.get (Article.title article) "").
  set (content := PyStr.take 1000 (Article.get (Article.cleaned_content article) "")).
  exists (Props.hits (PyStr.lower title) Bias.clickbait_words),
         (PyStr.count "!" title + PyStr.count "!" content >? 3).
  split; [apply hits_bound|].
  pose proof (hits_bound (PyStr.lower title)) as Hb.
  unfold Bias.detect_bias. fold title. fold content.
  rewrite check_words. unfold Bias.exclamation_count.
  destruct (PyStr.count "!" title + PyStr.count "!" content >? 3);
    cbn [Bias.bias_score]; lia.
Qed.

(** C6 (as stated) fails: the three phrases in the text of this article
    add nothing to its bias score and leave no flag. *)
Lemma C6_counterexample :
  let a := Examples.quiet_title_article in
  let content := PyStr.take 1000 (Article.get (Article.cleaned_content a) "") in
  PyStr.contains "shocking" (PyStr.lower content) = true /\
  In "shocking" Bias.clickbait_words /\
  Bias.bias_score (Bias.detect_bias a) = 0 /\
  Bias.flags (Bias.detect_bias a) = [].
Proof. repeat split; try reflexivity. now left. Qed.

(** C6 (amended).  Bias detection adds 10 and a flag for each clickbait
    phrase of the fixed list that occurs in the lower-cased title (the text
    is not searched for phrases), and adds 5 and a flag when the
    exclamation marks of the title and of the first 1000 characters of the
    text number more than 3; more than 15 points make a clickbait. *)
Theorem C6_detect_bias (article : Article.t) :
  let title := Article.get (Article.title article) "" in
  let content := PyStr.take 1000 (Article.get (Article.cleaned_content article) "") in
  let found := Props.hits (PyStr.lower title) Bias.clickbait_words in
  let loud := PyStr.count "!" title + PyStr.count "!" content >? 3 in
  let score := 10 * Z.of_nat (List.length found) + (if loud then 5 else 0) in
  Bias.bias_score (Bias.detect_bias article) = score /\
  Bias.flags (Bias.detect_bias article)
    = map Bias.clickbait_flag found ++ (if loud then [Bias.exclamation_flag] else []) /\
  Bias.is_clickbait (Bias.detect_bias article) = (score >? 15) /\
  (forall w, In w found <->
     In w Bias.clickbait_words /\
     exists pre post, PyStr.lower title = (pre ++ w ++ post)%string).
Proof.
  intros title content found loud score.
  assert (Hb : (List.length found <= 5)%nat) by apply hits_bound.
  assert (Hrun : Bias.detect_bias article
                 = Bias.mk (Z.min score 100)
                     (map Bias.clickbait_flag found
                      ++ (if loud then [Bias.exclamation_flag] else []))
                     (score >? 15)).
  { unfold Bias.detect_bias. fold title. fold content.
    rewrite check_words. fold found. unfold Bias.exclamation_count. fold loud.
    subst score. destruct loud; simpl; [reflexivity|].
    now rewrite app_nil_r, Z.add_0_r. }
  rewrite Hrun. cbn [Bias.bias_score Bias.flags Bias.is_clickbait].
  split; [subst score; destruct loud; lia|].
  split; [reflexivity|]. split; [reflexivity|].
  intros w. unfold found, Props.hits. rewrite filter_In, contains_spec. reflexivity.
Qed.

(** ** Credibility scores *)

Lemma score_source_values (source_name : string) :
  In (Credibility.score (Credibility.score_source source_name)) Props.source_scores.
Proof.
  unfold Credibility.score_source.
  repeat match goal with
         | |- context [PyStr.any_in ?ws ?s] => destruct (PyStr.any_in ws s)
         end; simpl; tauto.
Qed.

Lemma blend_table :
  forallb (fun s => forallb (Props.blend_agrees s) Props.content_scores)
    Props.source_scores = true.
Proof. vm_compute. reflexivity. Qed.

(** On the scores that occur, the float sum truncates to the integer part
    of the exact sum [(7 s + 3 c) / 10]. *)
Lemma blend_exact (s c : Z) :
  In s Props.source_scores -> In c Props.content_scores ->
  Credibility.int (Credibility.blend s c) = Ok ((7 * s + 3 * c) / 10).
Proof.
  intros Hs Hc. pose proof blend_table as H.
  rewrite forallb_forall in H. specialize (H s Hs).
  rewrite forallb_forall in H. specialize (H c Hc).
  unfold Props.blend_agrees in H.
  destruct (Credibility.int (Credibility.blend s c)); [|discriminate].
  apply Z.eqb_eq in H. now subst.
Qed.

Lemma content_quality_values (article : Article.t) :
  In (100 - Bias.bias_score (Bias.detect_bias article)) Props.content_scores.
Proof.
  destruct (detect_bias_form article) as [found [loud [Hlen ->]]].
  destruct found as [|? [|? [|? [|? [|? [|? ?]]]]]]; simpl in Hlen; try lia;
    destruct loud; vm_compute; tauto.
Qed.

Example scenario_D :
  Credibility.score (Credibility.score_source "BBC News") = 95 /\
  Credibility.is_reputable (Credibility.score_source "BBC News") = true /\
  Credibility.score (Credibility.score_source "My Cool Blog") = 40 /\
  Credibility.is_reputable (Credibility.score_source "My Cool Blog") = false.
Proof. repeat split. Qed.

Example scenario_E :
  Bias.bias_score (Bias.detect_bias Examples.loud_article) = 35 /\
  Bias.is_clickbait (Bias.detect_bias Examples.loud_article) = true /\
  option_map Credibility.overall_score
    (match Credibility.score_article Examples.loud_article with
     | Ok sc => Some sc
     | Raise _ => None
     end) = Some 27.
Proof. repeat split; vm_compute; reflexivity. Qed.

(** C5 (as stated) fails: for an article of CNN without bias signals the
    weighted sum is 88 * 0.7 + 100 * 0.3, about 91.6; the overall score is
    91, and rounding gives 92. *)
Lemma C5_counterexample :
  exists sc,
    Credibility.score_article Examples.cnn_article = Ok sc /\
    Credibility.article_is_clickbait sc = false /\
    Credibility.overall_score sc = 91 /\
    Credibility.round
      (Credibility.blend (Credibility.source_score sc)
         (100 - Credibility.article_bias_score sc)) = Ok 92.
Proof. eexists. repeat split; vm_compute; reflexivity. Qed.

(** C5 (amended).  For every article the overall score is the integer
    part (not the rounding) of sourceScore * 0.7 + (100 - biasScore) * 0.3,
    which the float computation gets exactly, reduced by 20 and floored at
    0 for a clickbait, and capped at 100; it lies in [0,100]. *)
Theorem C5_overall_score (article : Article.t) :
  exists sc,
    Credibility.score_article article = Ok sc /\
    let s := Credibility.source_score sc in
    let b := Credibility.article_bias_score sc in
    let t := (7 * s + 3 * (100 - b)) / 10 in
    s = Credibility.score
          (Credibility.score_source
             (Article.get (Article.source article) "Unknown")) /\
    b = Bias.bias_score (Bias.detect_bias article) /\
    Credibility.article_is_clickbait sc
      = Bias.is_clickbait (Bias.detect_bias article) /\
    Credibility.int (Credibility.blend s (100 - b)) = Ok t /\
    Credibility.overall_score sc
      = Z.min 100 (if Credibility.article_is_clickbait sc
                   then Z.max 0 (t - 20) else t) /\
    0 <= Credibility.overall_score sc <= 100.
Proof.
  pose proof (score_source_values (Article.get (Article.source article) "Unknown")) as Hs.
  pose proof (content_quality_values article) as Hc.
  unfold Credibility.score_article.
  set (s := Credibility.score _) in *.
  set (bd := Bias.detect_bias article) in *.
  assert (Hmax : Z.max 0 (100 - Bias.bias_score bd) = 100 - Bias.bias_score bd).
  { unfold Props.content_scores in Hc. cbn [In] in Hc. lia. }
  assert (Ht : 0 <= (7 * s + 3 * (100 - Bias.bias_score bd)) / 10 < 97).
  { unfold Props.source_scores in Hs. unfold Props.content_scores in Hc.
    cbn [In] in Hs, Hc. split.
    - apply Z.div_pos; lia.
    - apply Z.div_lt_upper_bound; lia. }
  rewrite Hmax, (blend_exact Hs Hc). cbn [bind].
  eexists. split; [reflexivity|].
  cbn [Credibility.source_score Credibility.article_bias_score
       Credibility.article_is_clickbait Credibility.overall_score].
  repeat split; try reflexivity.
  - now apply blend_exact.
  - destruct (Bias.is_clickbait bd); lia.
  - destruct (Bias.is_clickbait bd); lia.
Qed.

(** ** Date extraction *)

Lemma Permutation_filter {A} (f : A -> bool) (l l' : list A) :
  Permutation l l' -> Permutation (filter f l) (filter f l').
Proof.
  induction 1 as [|x l l' _ IH|x y l|l l' l'' _ IH1 _ IH2]; simpl.
  - constructor.
  - destruct (f x); [now constructor | assumption].
  - destruct (f x), (f y); try reflexivity. apply perm_swap.
  - now transitivity (filter f l').
Qed.

Lemma NoDup_map_filter {A B} (g : A -> B) (f : A -> bool) (l : list A) :
  NoDup (map g l) -> NoDup (map g (filter f l)).
Proof.
  induction l as [|x l IH]; simpl; [trivial|].
  intros H. inversion H as [|? ? Hnotin Hnd]; subst.
  destruct (f x); simpl; [|now apply IH].
  constructor; [|now apply IH].
  intros Hin. apply Hnotin. apply in_map_iff in Hin as [y [Hy Hin]].
  apply filter_In in Hin as [Hin _]. apply in_map_iff. now exists y.
Qed.

Lemma filter_length_filter {A} (f g : A -> bool) (l : list A) :
  (List.length (filter f (filter g l)) <= List.length (filter f l))%nat.
Proof.
  rewrite <- (filter_length_le g (filter f l)) at 1.
  apply Nat.eq_le_incl. f_equal.
  induction l as [|x l IH]; simpl; [reflexivity|].
  destruct (g x) eqn:G, (f x) eqn:F; simpl; rewrite ?G, ?F; congruence.
Qed.

Section ExtractFacts.
Import Extractor Props.
Variable parse : PyDate.datetime -> string -> parsed.
Variable now : nat -> PyDate.datetime.
Variable finditer : pattern -> string -> list rematch.

Let inv (st : state) : Prop := extract_inv (dates st) (found_dates st).

Lemma mem_false k l : mem k l = false -> ~ In k l.
Proof.
  unfold mem. intros H Hin.
  assert (existsb (String.eqb k) l = true); [|congruence].
  apply existsb_exists. exists k. split; [assumption | apply String.eqb_refl].
Qed.

Lemma published_inv published_date :
  inv (published parse now published_date (mkstate 0 [] [])).
Proof.
  assert (H0 : extract_inv [] []).
  { repeat split; simpl; try constructor; easy. }
  unfold published, inv.
  destruct (String.eqb published_date ""); [exact H0|].
  unfold clock; simpl.
  destruct (parse (now 0) published_date) as [|t tz|]; try exact H0.
  destruct (PyDate.leb _ _); [|exact H0].
  unfold extract_inv, append, texts, metas. simpl.
  split; [constructor|]. split; [intros m []|]. split; [lia|].
  constructor; [|constructor]. right. split; reflexivity.
Qed.

Lemma candidate_inv date_str context st :
  inv st -> inv (fst (candidate parse now date_str context st)).
Proof.
  unfold inv, candidate, clock. simpl.
  destruct (parse (now (tick st)) date_str) as [|t tz|]; simpl; try easy.
  destruct (PyDate.leb _ _); simpl; [|easy].
  destruct (mem _ (found_dates st)) eqn:M; simpl; [easy|].
  apply mem_false in M.
  intros [Hnd [Hfound [Hmeta Hkinds]]].
  unfold extract_inv, texts, metas in *. rewrite !filter_app. simpl.
  rewrite app_nil_r. split; [|split; [|split]].
  - rewrite map_app. simpl. apply NoDup_app; [assumption | repeat constructor; easy |].
    intros x Hx [<-|[]]. apply in_map_iff in Hx as [m [Hm Hin]].
    apply M. rewrite <- Hm. now apply Hfound.
  - intros m Hm. apply in_app_iff in Hm as [Hm | [<-|[]]]; simpl.
    + right. now apply Hfound.
    + now left.
  - assumption.
  - apply Forall_app. split; [assumption|].
    constructor; [|constructor]. left. split; reflexivity.
Qed.

Lemma scan_pattern_inv text p st :
  inv st -> inv (scan_pattern parse now finditer text st p).
Proof.
  unfold scan_pattern. generalize (finditer p text) as ms. intros ms. revert st.
  induction ms as [|m ms IH]; intros st H; simpl; [assumption|].
  apply IH. unfold pattern_match. now apply candidate_inv.
Qed.

Lemma natural_inv text ms : forall st,
  inv st -> inv (natural parse now text ms st).
Proof.
  induction ms as [|m ms IH]; intros st H; simpl; [assumption|].
  pose proof (candidate_inv (group1 m) (slice (m_start m) (m_end m) text) H) as Hc.
  destruct (candidate parse now (group1 m) (slice (m_start m) (m_end m) text) st)
    as [st' raised].
  simpl in Hc. destruct raised; [assumption | now apply IH].
Qed.

Lemma collect_inv text published_date :
  inv (collect parse now finditer text published_date).
Proof.
  unfold collect. apply natural_inv.
  generalize (published_inv published_date).
  generalize (published parse now published_date (mkstate 0 [] [])).
  generalize date_patterns as ps.
  induction ps as [|p ps IH]; intros st H; simpl; [assumption|].
  apply IH. now apply scan_pattern_inv.
Qed.

(** The invariant survives the final filter and sort. *)
Lemma extract_dates_inv text published_date :
  let out := _extract_dates parse now finditer text published_date in
  NoDup (map Mention.date (texts out)) /\
  (List.length (metas out) <= 1)%nat /\
  Forall (fun m => is_text m = true /\ is_metadata m = false \/
                   is_text m = false /\ is_metadata m = true) out.
Proof.
  intros out. subst out. unfold _extract_dates.
  destruct (collect_inv text published_date) as [Hnd [_ [Hmeta Hkinds]]].
  set (st := collect parse now finditer text published_date) in *.
  unfold clock. cbn [fst snd].
  set (valid := fun d => PyDate.leb (Mention.datetime d) (now (tick st))).
  pose proof (sorted_perm Mention.datetime (filter valid (dates st))) as Hp.
  split; [|split].
  - apply (Permutation_NoDup
             (l := map Mention.date (texts (filter valid (dates st))))).
    + apply Permutation_map, Permutation_filter. now symmetry.
    + unfold texts in *.
      replace (filter is_text (filter valid (dates st)))
        with (filter valid (filter is_text (dates st))).
      * now apply NoDup_map_filter.
      * generalize (dates st) as l. induction l as [|x l IH]; simpl; [reflexivity|].
        destruct (is_text x) eqn:T, (valid x) eqn:V; simpl; rewrite ?T, ?V; congruence.
  - unfold metas in *.
    rewrite (Permutation_length (Permutation_filter is_metadata Hp)).
    etransitivity; [apply filter_length_filter | exact Hmeta].
  - eapply Permutation_Forall; [symmetry; exact Hp|].
    rewrite Forall_forall in *. intros m Hm.
    apply filter_In in Hm as [Hm _]. now apply Hkinds.
Qed.
End ExtractFacts.

Lemma count_by_kind (out : list Mention.t) (d : string) :
  Forall (fun m => Props.is_text m = true /\ Props.is_metadata m = false \/
                   Props.is_text m = false /\ Props.is_metadata m = true) out ->
  count_occ string_dec (map Mention.date out) d
  = (count_occ string_dec (map Mention.date (Props.texts out)) d
     + count_occ string_dec (map Mention.date (Props.metas out)) d)%nat.
Proof.
  induction 1 as [|m out [[Ht Hm] | [Ht Hm]] _ IH]; simpl; [reflexivity| |];
    rewrite Ht, Hm; simpl; destruct (string_dec (Mention.date m) d); lia.
Qed.

Lemma count_le_length (l : list string) (d : string) :
  (count_occ string_dec l d <= List.length l)%nat.
Proof.
  induction l as [|x l IH]; simpl; [lia|].
  destruct (string_dec x d); lia.
Qed.

Example extract_treaty :
  Extractor._extract_dates Examples.treaty_parse Examples.treaty_now
    Examples.treaty_finditer Examples.treaty_text "2024-01-01"
  = [Mention.mk "2024-01-01" (PyDate.midnight 2024 1 1)
       "Article publication date" "metadata";
     Mention.mk "2024-01-01" (PyDate.midnight 2024 1 1)
       "The treaty was signed on 2024-01-01 in Paris." "text"].
Proof. reflexivity. Qed.

(** C7 (as stated) fails: for a text that names the day of publication
    the extractor returns two mentions of that day, the metadata one and
    the text one. *)
Lemma C7_counterexample :
  ~ NoDup (map Mention.date
             (Extractor._extract_dates Examples.treaty_parse Examples.treaty_now
                Examples.treaty_finditer Examples.treaty_text "2024-01-01")).
Proof.
  rewrite extract_treaty. simpl. intros H.
  inversion H as [|? ? Hnotin _]; subst. apply Hnotin. now left.
Qed.

(** C7 (amended).  Whatever the parser, the clock and the matches, the
    mentions returned by the extractor are tagged "text" or "metadata";
    the text mentions have pairwise distinct days; there is at most one
    metadata mention; so a day has at most two mentions, one of each
    kind. *)
Theorem C7_extract_dates_dedup
    (parse : PyDate.datetime -> string -> Extractor.parsed)
    (now : nat -> PyDate.datetime)
    (finditer : Extractor.pattern -> string -> list Extractor.rematch)
    (text published_date : string) :
  let out := Extractor._extract_dates parse now finditer text published_date in
  NoDup (map Mention.date (Props.texts out)) /\
  (List.length (Props.metas out) <= 1)%nat /\
  (forall m, In m out ->
     Mention.source m = "text" \/ Mention.source m = "metadata") /\
  (forall d, (count_occ string_dec (map Mention.date out) d <= 2)%nat).
Proof.
  intros out.
  destruct (extract_dates_inv parse now finditer text published_date)
    as [Hnd [Hmeta Hkinds]].
  fold out in Hnd, Hmeta, Hkinds.
  split; [assumption|]. split; [assumption|]. split.
  - rewrite Forall_forall in Hkinds. intros m Hm.
    destruct (Hkinds m Hm) as [[Ht _] | [_ Hm']].
    + left. now apply String.eqb_eq.
    + right. now apply String.eqb_eq.
  - intros d. rewrite (count_by_kind d Hkinds).
    pose proof (proj1 (NoDup_count_occ string_dec _) Hnd d) as H1.
    pose proof (count_le_length (map Mention.date (Props.metas out)) d) as H2.
    rewrite length_map in H2. lia.
Qed.

(** * Further properties of the code *)

(** ** Sorting *)

Section StableSort.
Variable A : Type.
Variable key : A -> PyDate.datetime.

Lemma insert_same_time (k : PyDate.datetime) (x : A) (l : list A) :
  filter (fun y => Extra.same_time (key y) k) (PyDate.insert key x l)
  = filter (fun y => Extra.same_time (key y) k) (x :: l).
Proof.
  induction l as [|y l IH]; [reflexivity|].
  cbn [PyDate.insert]. destruct (PyDate.leb (key x) (key y)) eqn:E; [reflexivity|].
  cbn [filter] in *. rewrite IH.
  destruct (Extra.same_time (key x) k) eqn:Sx; [|reflexivity].
  destruct (Extra.same_time (key y) k) eqn:Sy; [|reflexivity].
  exfalso. unfold Extra.same_time in Sx, Sy.
  apply andb_true_iff in Sx as [Sx _]. apply andb_true_iff in Sy as [_ Sy].
  pose proof (@le_trans _ _ _ Sx Sy) as H. unfold PyDate.le in H. congruence.
Qed.

Lemma sorted_same_time (k : PyDate.datetime) (l : list A) :
  filter (fun y => Extra.same_time (key y) k) (PyDate.sorted key l)
  = filter (fun y => Extra.same_time (key y) k) l.
Proof.
  induction l as [|x l IH]; [reflexivity|].
  change (PyDate.sorted key (x :: l)) with (PyDate.insert key x (PyDate.sorted key l)).
  rewrite insert_same_time. cbn [filter]. now rewrite IH.
Qed.
End StableSort.

(** X1.  [_sort_timeline] returns its events, each as often as it was
    given, in non-decreasing order of the parsed date. *)
Theorem X1_sort_timeline_permutation_sorted (events : list Timeline.Event) :
  Permutation (Timeline._sort_timeline events) events /\
  StronglySorted PyDate.le (map Props.sort_key (Timeline._sort_timeline events)).
Proof.
  split.
  - apply sorted_perm.
  - apply StronglySorted_map. apply sorted_sorted.
Qed.

(** X2.  [_sort_timeline] is stable: the events of one parsed date, in
    particular all those whose date does not parse, keep the order in
    which they were given. *)
Theorem X2_sort_timeline_stable (events : list Timeline.Event) (k : PyDate.datetime) :
  filter (Extra.same_day k) (Timeline._sort_timeline events)
  = filter (Extra.same_day k) events.
Proof. apply (sorted_same_time Props.sort_key k events). Qed.

(** ** The milestone pass *)

(** X3.  [_identify_milestones] changes nothing but the flag: the length
    and, index by index, the date, description, source and count of the
    events are those given; afterwards every event has a flag. *)
Theorem X3_identify_milestones_only_flags (events : list Timeline.Event) :
  map Extra.content (Timeline._identify_milestones events) = map Extra.content events /\
  List.length (Timeline._identify_milestones events) = List.length events /\
  Forall (fun e => Timeline.is_milestone e <> None)
    (Timeline._identify_milestones events).
Proof.
  assert (Hc : map Extra.content (Timeline._identify_milestones events)
               = map Extra.content events) by (now apply identify_field).
  split; [exact Hc|]. split.
  - rewrite <- (length_map Extra.content), Hc. apply length_map.
  - rewrite Forall_forall. intros e He.
    apply identify_in in He as [e0 [b [_ ->]]]. discriminate.
Qed.

(** ** Merging *)

Section MergeMore.
Import Timeline Props.
Variable list_of_set : list string -> list string.

Lemma grouped_keys events : forall g0 k,
  In k (map fst (grouped_from g0 events)) <->
  In k (map fst g0) \/ In k (map date events).
Proof.
  induction events as [|e events IH]; intros g0 k; simpl; [tauto|].
  unfold grouped_from in *. rewrite IH.
  destruct (in_dec string_dec (date e) (map fst g0)) as [Hin|Hout].
  - rewrite group_append_keys_in by assumption.
    split; [tauto|]. intros [H | [<- | H]]; tauto.
  - rewrite group_append_keys_new by assumption.
    rewrite in_app_iff. simpl. split; [tauto|]. tauto.
Qed.

Lemma group_append_fresh d e g :
  ~ In d (map fst g) -> group_append d e g = g ++ [(d, [e])].
Proof.
  induction g as [|[k es] rest IH]; simpl; [reflexivity|].
  intros H. destruct (String.eqb_spec k d) as [->|Hkd].
  - exfalso. apply H. now left.
  - f_equal. apply IH. tauto.
Qed.

Lemma grouped_distinct events : forall g0,
  NoDup (map date events) ->
  (forall d, In d (map date events) -> ~ In d (map fst g0)) ->
  grouped_from g0 events = g0 ++ map (fun e => (date e, [e])) events.
Proof.
  induction events as [|e events IH]; intros g0 Hnd Hfresh; simpl.
  - now rewrite app_nil_r.
  - inversion Hnd as [|? ? Hnotin Hnd']; subst.
    unfold grouped_from in *. simpl.
    rewrite group_append_fresh by (apply Hfresh; now left).
    rewrite IH; [now rewrite <- app_assoc | assumption |].
    intros d Hd. rewrite map_app, in_app_iff. simpl.
    intros [H | [<- | []]]; [|contradiction].
    apply (Hfresh d); [now right | assumption].
Qed.

(** A list of pairwise distinct dates is merged into itself. *)
Lemma merge_distinct events :
  NoDup (map date events) ->
  _merge_duplicate_dates list_of_set events = events.
Proof.
  intros Hnd. unfold _merge_duplicate_dates, date_groups.
  change (fold_left _ events []) with (grouped_from [] events).
  rewrite grouped_distinct by (assumption || easy). simpl.
  clear Hnd. induction events as [|e events IH]; simpl; [reflexivity|].
  now rewrite IH.
Qed.
End MergeMore.

Lemma merge_keeps_dates
    (list_of_set : list string -> list string)
    (events : list Timeline.Event) (d : string) :
  In d (map Timeline.date (Timeline._merge_duplicate_dates list_of_set events))
  <-> In d (map Timeline.date events).
Proof.
  rewrite merge_dates. unfold Timeline.date_groups.
  change (fold_left _ events []) with (Props.grouped_from [] events).
  rewrite grouped_keys. simpl. tauto.
Qed.

(** X4.  The merged list has the dates of the raw list, no other and
    none missing. *)
Theorem X4_merge_keeps_dates
    (list_of_set : list string -> list string)
    (events : list Timeline.Event) (d : string) :
  In d (map Timeline.date (Timeline._merge_duplicate_dates list_of_set events))
  <-> In d (map Timeline.date events).
Proof. apply merge_keeps_dates. Qed.

(** X5.  Merging is idempotent: merging a merged list changes nothing. *)
Theorem X5_merge_idempotent
    (list_of_set : list string -> list string) (events : list Timeline.Event) :
  Timeline._merge_duplicate_dates list_of_set
    (Timeline._merge_duplicate_dates list_of_set events)
  = Timeline._merge_duplicate_dates list_of_set events.
Proof. apply merge_distinct, merge_nodup. Qed.

(** X6.  The dates of the timeline are exactly the dates of the
    AI-analysis entries together with the dates of the articles'
    mentions. *)
Theorem X6_timeline_dates
    (list_of_set : list string -> list string)
    (analysis : Timeline.Analysis) (articles : list Article.t) (d : string) :
  In d (map Timeline.date (Timeline.generate_timeline list_of_set analysis articles))
  <->
  In d (map Timeline.date (Timeline.ai_events analysis)) \/
  exists a m, In a articles /\ In m (Props.mentions a) /\ Mention.date m = d.
Proof.
  unfold Timeline.generate_timeline.
  rewrite identify_field by reflexivity.
  assert (Hsort : forall l, In d (map Timeline.date (Timeline._sort_timeline l))
                            <-> In d (map Timeline.date l)).
  { intros l. split; apply Permutation_in, Permutation_map;
      [apply sorted_perm | symmetry; apply sorted_perm]. }
  rewrite Hsort, merge_keeps_dates.
  destruct (@collect_extends articles (Timeline.ai_events analysis) articles
              (Timeline.ai_events analysis))
    as [rest [Heq [_ Hrest]]].
  - apply incl_refl.
  - exists []. rewrite app_nil_r. repeat split; [constructor | easy | easy].
  - fold (Timeline.collect analysis articles) in Heq. split.
    + rewrite Heq, map_app, in_app_iff. intros [H | H]; [now left|].
      right. apply in_map_iff in H as [e [<- He]].
      destruct (Hrest e He) as [_ [a [m [Ha [Hm ->]]]]]. now exists a, m.
    + intros [H | [a [m [Ha [Hm <-]]]]].
      * rewrite Heq, map_app, in_app_iff. now left.
      * unfold Timeline.collect. apply collect_adds with (a := a); assumption.
Qed.

(** ** The calendar *)

Section Calendar.
Import PyDate Extra.

Lemma strptime_ok (s : string) (t : datetime) :
  strptime s = Ok t ->
  exists y m d, t = midnight y m d /\ valid_date y m d = true.
Proof.
  unfold strptime.
  destruct (re_match s) as [[[[y m] d] [|c rest]]|]; try discriminate.
  destruct (valid_date y m d) eqn:V; [|discriminate].
  intros H. inversion H. now exists y, m, d.
Qed.

Lemma valid_date_bounds y m d :
  valid_date y m d = true ->
  1 <= y /\ 1 <= m <= 12 /\ 1 <= d <= days_in_month y m.
Proof.
  unfold valid_date. intros V.
  repeat (apply andb_true_iff in V as [V ?]).
  repeat match goal with
         | Hle : (_ <=? _) = true |- _ => apply Z.leb_le in Hle
         end.
  lia.
Qed.

Lemma days_before_next_year y :
  days_before_year (y + 1) = days_before_year y + 365 + leap_day y.
Proof.
  unfold days_before_year, leap_day, is_leap.
  replace (y + 1 - 1) with y by lia.
  destruct (Z.eqb_spec (y mod 4) 0), (Z.eqb_spec (y mod 100) 0),
    (Z.eqb_spec (y mod 400) 0); cbn [andb orb negb];
    Z.div_mod_to_equations; lia.
Qed.

Lemma days_before_year_mono y1 y2 :
  y1 <= y2 -> days_before_year y1 <= days_before_year y2.
Proof.
  unfold days_before_year. intros H. Z.div_mod_to_equations. lia.
Qed.

Ltac months m H :=
  let Hm := fresh "Hm" in
  assert (Hm : m = 1 \/ m = 2 \/ m = 3 \/ m = 4 \/ m = 5 \/ m = 6 \/
               m = 7 \/ m = 8 \/ m = 9 \/ m = 10 \/ m = 11 \/ m = 12) by lia;
  clear H;
  destruct Hm as [->|[->|[->|[->|[->|[->|[->|[->|[->|[->|[->| ->]]]]]]]]]]].

Ltac table :=
  repeat match goal with
         | |- context [fold_right Z.add 0 ?l] =>
             let v := eval vm_compute in (fold_right Z.add 0 l) in
             change (fold_right Z.add 0 l) with v
         end.

(** The day of the year of a date lies within the year. *)
Lemma day_of_year_bounds y m d :
  1 <= m <= 12 -> 1 <= d <= days_in_month y m ->
  1 <= days_before_month y m + d <= 365 + leap_day y.
Proof.
  unfold days_before_month, days_in_month, leap_day.
  generalize (is_leap y). intros leap Hm Hd.
  months m Hm; cbn in Hd; destruct leap; table; lia.
Qed.

(** Within a year, an earlier month ends before a later one begins. *)
Lemma day_of_year_months y m1 d1 m2 :
  1 <= m1 <= 12 -> 1 <= m2 <= 12 -> m1 < m2 ->
  1 <= d1 <= days_in_month y m1 ->
  days_before_month y m1 + d1 <= days_before_month y m2.
Proof.
  unfold days_before_month, days_in_month.
  generalize (is_leap y). intros leap Hm1 Hm2 Hlt Hd.
  months m1 Hm1; months m2 Hm2; try lia; cbn in Hd; destruct leap; table; lia.
Qed.

(** The ordinal grows with the date. *)
Lemma toordinal_mono y1 m1 d1 y2 m2 d2 :
  valid_date y1 m1 d1 = true -> valid_date y2 m2 d2 = true ->
  leb (midnight y1 m1 d1) (midnight y2 m2 d2) = true ->
  toordinal (midnight y1 m1 d1) <= toordinal (midnight y2 m2 d2).
Proof.
  intros V1 V2 Hle.
  apply valid_date_bounds in V1 as [Hy1 [Hm1 Hd1]].
  apply valid_date_bounds in V2 as [Hy2 [Hm2 Hd2]].
  unfold leb, midnight, fields in Hle.
  cbn [year month day hour minute second microsecond] in Hle.
  unfold toordinal, midnight. cbn [year month day].
  pose proof (day_of_year_bounds y1 Hm1 Hd1) as B1.
  pose proof (day_of_year_bounds y2 Hm2 Hd2) as B2.
  apply lex_leb_cons in Hle as [Hy | [-> Hle]].
  - pose proof (days_before_next_year y1) as N.
    pose proof (@days_before_year_mono (y1 + 1) y2 ltac:(lia)) as M. lia.
  - apply lex_leb_cons in Hle as [Hm | [-> Hle]].
    + pose proof (@day_of_year_months y2 m1 d1 m2 Hm1 Hm2 Hm Hd1). lia.
    + apply lex_leb_cons in Hle as [Hd | [-> _]]; lia.
Qed.
End Calendar.

(** ** Timeline statistics, continued *)

Lemma mapM_Ok {A B} (f : A -> result B) (l : list A) (bs : list B) :
  mapM f l = Ok bs -> Forall2 (fun a b => f a = Ok b) l bs.
Proof.
  revert bs; induction l as [|a l IH]; intros bs H; simpl in H.
  - inversion H. constructor.
  - destruct (f a) as [b|] eqn:Fa; [|discriminate]. simpl in H.
    destruct (mapM f l) as [bs'|]; [|discriminate]. simpl in H.
    inversion H; subst. constructor; [assumption | now apply IH].
Qed.

Lemma mapM_all {A B} (f : A -> result B) (l : list A) :
  Forall (fun a => exists b, f a = Ok b) l -> exists bs, mapM f l = Ok bs.
Proof.
  induction 1 as [|a l [b Hb] _ [bs IH]]; simpl.
  - now exists [].
  - rewrite Hb, IH. simpl. now exists (b :: bs).
Qed.

Lemma dt_max_spec l : forall a,
  In (PyDate.dt_max a l) (a :: l) /\
  forall x, In x (a :: l) -> PyDate.le x (PyDate.dt_max a l).
Proof.
  induction l as [|y l IH]; intros a; simpl.
  - split; [now left|]. intros x [<-|[]].
    destruct (PyDate.leb a a) eqn:E; [exact E | now apply le_total].
  - unfold PyDate.dt_max in *. simpl.
    destruct (PyDate.leb y a) eqn:E.
    + destruct (IH a) as [Hin Hmax]. split.
      * destruct Hin as [<-|Hin]; [now left | right; now right].
      * intros x [<-|[<-|Hx]].
        -- apply Hmax. now left.
        -- eapply le_trans; [exact E | apply Hmax; now left].
        -- apply Hmax. now right.
    + destruct (IH y) as [Hin Hmax]. split.
      * now right.
      * intros x [<-|[<-|Hx]].
        -- eapply le_trans; [apply le_total; exact E | apply Hmax; now left].
        -- apply Hmax. now left.
        -- apply Hmax. now right.
Qed.

Lemma dt_min_spec l : forall a,
  In (PyDate.dt_min a l) (a :: l) /\
  forall x, In x (a :: l) -> PyDate.le (PyDate.dt_min a l) x.
Proof.
  induction l as [|y l IH]; intros a; simpl.
  - split; [now left|]. intros x [<-|[]].
    destruct (PyDate.leb a a) eqn:E; [exact E | now apply le_total].
  - unfold PyDate.dt_min in *. simpl.
    destruct (PyDate.leb a y) eqn:E.
    + destruct (IH a) as [Hin Hmin]. split.
      * destruct Hin as [<-|Hin]; [now left | right; now right].
      * intros x [<-|[<-|Hx]].
        -- apply Hmin. now left.
        -- eapply le_trans; [apply Hmin; now left | exact E].
        -- apply Hmin. now right.
    + destruct (IH y) as [Hin Hmin]. split.
      * now right.
      * intros x [<-|[<-|Hx]].
        -- eapply le_trans; [apply Hmin; now left | apply le_total; exact E].
        -- apply Hmin. now left.
        -- apply Hmin. now right.
Qed.

(** X7.  [get_timeline_stats] returns statistics exactly when every date
    of the timeline is accepted by [strptime]; otherwise it raises. *)
Theorem X7_stats_returns_iff_dates_parse (timeline : list Timeline.Event) :
  (exists s, Timeline.get_timeline_stats timeline = Ok s)
  <-> Forall Extra.parses timeline.
Proof.
  unfold Timeline.get_timeline_stats. split.
  - intros [s H]. destruct timeline as [|first rest]; [constructor|].
    destruct (mapM (fun e => PyDate.strptime (Timeline.date e)) (first :: rest))
      as [dates|] eqn:M; [|discriminate].
    apply mapM_Ok in M. clear H.
    induction M as [|e t l ts He _ IH]; constructor; [now exists t | assumption].
  - intros H. destruct timeline as [|first rest]; [now eexists|].
    destruct (mapM_all (fun e => PyDate.strptime (Timeline.date e)) H) as [dates ->].
    simpl. now eexists.
Qed.

(** X8.  The statistics, when returned: the number of events; a number
    of milestones between 0 and that; for an empty timeline the range
    "N/A" and no duration; otherwise the first and the last date as the
    range and a duration that is not negative. *)
Theorem X8_stats_values (timeline : list Timeline.Event) (s : Timeline.Stats) :
  Timeline.get_timeline_stats timeline = Ok s ->
  Timeline.total_events s = Z.of_nat (List.length timeline) /\
  0 <= Timeline.milestone_count s <= Timeline.total_events s /\
  match timeline with
  | [] => Timeline.date_range s = "N/A" /\ Timeline.duration_days s = None
  | first :: _ =>
      Timeline.date_range s
      = (Timeline.date first ++ " to " ++ Timeline.date (last timeline first))%string /\
      exists d, Timeline.duration_days s = Some d /\ 0 <= d
  end.
Proof.
  unfold Timeline.get_timeline_stats.
  destruct timeline as [|first rest].
  - intros H. inversion H; subst. simpl. repeat split; try reflexivity; lia.
  - destruct (mapM (fun e => PyDate.strptime (Timeline.date e)) (first :: rest))
      as [dates|] eqn:M; [|discriminate].
    cbn [bind]. intros H. injection H as <-.
    cbn [Timeline.total_events Timeline.milestone_count Timeline.date_range
         Timeline.duration_days].
    pose proof (filter_length_le Timeline.get_milestone (first :: rest)) as Hf.
    split; [reflexivity|].
    split; [simpl in Hf |- *; destruct (Timeline.get_milestone first); simpl in *; lia|].
    split; [reflexivity|].
    apply mapM_Ok in M.
    destruct dates as [|d ds]; [inversion M|].
    eexists. split; [reflexivity|].
    assert (Hvalid : forall t, In t (d :: ds) ->
              exists y m dd, t = PyDate.midnight y m dd /\
                             PyDate.valid_date y m dd = true).
    { intros t Ht. clear Hf.
      induction M as [|e t' l ts He _ IH]; [destruct Ht|].
      destruct Ht as [<-|Ht]; [now apply strptime_ok in He | now apply IH]. }
    destruct (dt_max_spec ds d) as [Hmax_in Hmax].
    destruct (dt_min_spec ds d) as [Hmin_in Hmin].
    destruct (Hvalid _ Hmax_in) as [y2 [m2 [d2 [E2 V2]]]].
    destruct (Hvalid _ Hmin_in) as [y1 [m1 [d1 [E1 V1]]]].
    assert (Hle : PyDate.le (PyDate.dt_min d ds) (PyDate.dt_max d ds)).
    { eapply le_trans; [apply Hmin | apply Hmax]; now left. }
    unfold PyDate.days_between. rewrite E1, E2 in *.
    pose proof (@toordinal_mono _ _ _ _ _ _ V1 V2 Hle). lia.
Qed.

Lemma X8_stats_values_witness :
  4 = Z.of_nat 4 /\ 0 <= 3 <= 4 /\
  "2024-01-01 to 2024-01-04" = "2024-01-01 to 2024-01-04" /\
  exists d, Some 3 = Some d /\ 0 <= d.
Proof.
  exact (@X8_stats_values (Timeline._identify_milestones Examples.four_events)
           (Timeline.mkStats 4 "2024-01-01 to 2024-01-04" 3 (Some 3)) eq_refl).
Defined.

(** ** Display *)

Lemma count_app (c : ascii) (a b : string) :
  PyStr.count c (a ++ b)%string = PyStr.count c a + PyStr.count c b.
Proof.
  induction a as [|x a IH]; simpl; [reflexivity|]. rewrite IH. lia.
Qed.

Lemma line_one_line (e : Timeline.Event) :
  Extra.one_line (Timeline.date e) -> Extra.one_line (Timeline.event e) ->
  Extra.one_line (Display.line e).
Proof.
  unfold Extra.one_line, Display.line. intros Hd He.
  rewrite !count_app, Hd, He.
  destruct (Timeline.get_milestone e); reflexivity.
Qed.

(** X9.  The display text of a timeline whose dates and descriptions
    have no line break has one line per event: no line for an empty
    timeline, and one line break fewer than events otherwise. *)
Theorem X9_display_one_line_per_event (timeline : list Timeline.Event) :
  Forall (fun e => Extra.one_line (Timeline.date e) /\
                   Extra.one_line (Timeline.event e)) timeline ->
  Display.format_timeline_for_display [] = "" /\
  PyStr.count (ascii_of_nat 10) (Display.format_timeline_for_display timeline)
  = Z.max 0 (Z.of_nat (List.length timeline) - 1).
Proof.
  intros H. split; [reflexivity|].
  unfold Display.format_timeline_for_display.
  induction H as [|e l [Hd He] Hl IH]; [reflexivity|].
  pose proof (line_one_line e Hd He) as Hline. unfold Extra.one_line in Hline.
  destruct l as [|e' l'].
  - simpl. rewrite Hline. reflexivity.
  - change (PyStr.join Display.newline (map Display.line (e :: e' :: l')))
      with (Display.line e ++ Display.newline
            ++ PyStr.join Display.newline (map Display.line (e' :: l')))%string.
    rewrite !count_app, Hline, IH.
    change (PyStr.count (ascii_of_nat 10) Display.newline) with 1.
    cbn [List.length]. lia.
Qed.

Lemma X9_display_one_line_per_event_witness :
  Display.format_timeline_for_display [] = "" /\
  PyStr.count (ascii_of_nat 10)
    (Display.format_timeline_for_display
       (Timeline._identify_milestones Examples.four_events))
  = Z.max 0 (Z.of_nat 4 - 1).
Proof.
  apply (@X9_display_one_line_per_event
           (Timeline._identify_milestones Examples.four_events)).
  repeat constructor.
Defined.

Example display_four :
  Display.format_timeline_for_display
    (firstn 2 (Timeline._identify_milestones
                 (Timeline._sort_timeline Examples.three_raw)))
  = ("⭐ 2024-03-05 → Talks open" ++ Display.newline
     ++ "⭐ 2024-03-05 → Delegates arrive")%string.
Proof. reflexivity. Qed.

(** ** Date extraction, continued *)

Section ExtractMore.
Import Extractor.
Variable parse : PyDate.datetime -> string -> parsed.
Variable now : nat -> PyDate.datetime.
Variable finditer : pattern -> string -> list rematch.

Let made_all (st : state) : Prop := Forall (Extra.made parse) (dates st).

Lemma published_made published_date :
  made_all (published parse now published_date (mkstate 0 [] [])).
Proof.
  unfold published, made_all.
  destruct (String.eqb published_date ""); [constructor|].
  unfold clock; simpl.
  destruct (parse (now 0) published_date) as [|t tz|] eqn:P; try constructor.
  destruct (PyDate.leb _ _); [|constructor].
  simpl. constructor; [|constructor].
  unfold Extra.made, replace_tzinfo_none; simpl.
  split; [reflexivity|]. split; [|reflexivity].
  now exists (now 0), published_date, tz.
Qed.

Lemma candidate_made date_str context st :
  made_all st -> made_all (fst (candidate parse now date_str context st)).
Proof.
  unfold made_all, candidate, clock. simpl.
  destruct (parse (now (tick st)) date_str) as [|t tz|] eqn:P; simpl; try easy.
  destruct (PyDate.leb _ _); simpl; [|easy].
  destruct (mem _ (found_dates st)); simpl; [easy|].
  intros H. apply Forall_app. split; [assumption|].
  constructor; [|constructor].
  unfold Extra.made, replace_tzinfo_none; simpl.
  split; [reflexivity|]. split; [|discriminate].
  now exists (now (tick st)), date_str, tz.
Qed.

Lemma scan_pattern_made text p st :
  made_all st -> made_all (scan_pattern parse now finditer text st p).
Proof.
  unfold scan_pattern. generalize (finditer p text) as ms. intros ms. revert st.
  induction ms as [|m ms IH]; intros st H; simpl; [assumption|].
  apply IH. unfold pattern_match. now apply candidate_made.
Qed.

Lemma natural_made text ms : forall st,
  made_all st -> made_all (natural parse now text ms st).
Proof.
  induction ms as [|m ms IH]; intros st H; simpl; [assumption|].
  pose proof (candidate_made (group1 m) (slice (m_start m) (m_end m) text) H) as Hc.
  destruct (candidate parse now (group1 m) (slice (m_start m) (m_end m) text) st)
    as [st' raised].
  simpl in Hc. destruct raised; [assumption | now apply IH].
Qed.

Lemma collect_made text published_date :
  made_all (collect parse now finditer text published_date).
Proof.
  unfold collect. apply natural_made.
  generalize (published_made published_date).
  generalize (published parse now published_date (mkstate 0 [] [])).
  generalize date_patterns as ps.
  induction ps as [|p ps IH]; intros st H; simpl; [assumption|].
  apply IH. now apply scan_pattern_made.
Qed.

Lemma extract_dates_in text published_date m :
  In m (_extract_dates parse now finditer text published_date) ->
  In m (dates (collect parse now finditer text published_date)) /\
  PyDate.le (Mention.datetime m)
    (now (tick (collect parse now finditer text published_date))).
Proof.
  unfold _extract_dates, clock. cbn [fst snd]. intros H.
  apply (Permutation_in _ (sorted_perm _ _)) in H.
  now apply filter_In in H.
Qed.
End ExtractMore.

(** X10.  The mentions returned by the extractor are in non-decreasing
    order of their datetime; none is later than the last reading of the
    clock; the date string of each is the day of its datetime, which the
    parser returned for some string; a metadata mention has the context
    "Article publication date". *)
Theorem X10_extract_dates_output
    (parse : PyDate.datetime -> string -> Extractor.parsed)
    (now : nat -> PyDate.datetime)
    (finditer : Extractor.pattern -> string -> list Extractor.rematch)
    (text published_date : string) :
  let out := Extractor._extract_dates parse now finditer text published_date in
  let last_reading :=
    now (Extractor.tick (Extractor.collect parse now finditer text published_date)) in
  StronglySorted PyDate.le (map Mention.datetime out) /\
  forall m, In m out ->
    PyDate.le (Mention.datetime m) last_reading /\ Extra.made parse m.
Proof.
  intros out last_reading. split.
  - unfold out, Extractor._extract_dates, Extractor.clock. cbn [fst snd].
    apply StronglySorted_map, sorted_sorted.
  - intros m Hm. apply extract_dates_in in Hm as [Hin Hle].
    split; [exact Hle|].
    pose proof (collect_made parse now finditer text published_date) as H.
    rewrite Forall_forall in H. now apply H.
Qed.

(** X11.  When the parser recognises no date at all (it returns nothing
    or raises on every string), the extractor returns no mention and
    does not fail. *)
Theorem X11_extract_dates_nothing_parsed
    (parse : PyDate.datetime -> string -> Extractor.parsed)
    (now : nat -> PyDate.datetime)
    (finditer : Extractor.pattern -> string -> list Extractor.rematch)
    (text published_date : string) :
  (forall base s t tz, parse base s <> Extractor.Parsed t tz) ->
  Extractor._extract_dates parse now finditer text published_date = [].
Proof.
  intros Hnone.
  destruct (Extractor._extract_dates parse now finditer text published_date)
    as [|m l] eqn:E; [reflexivity|].
  assert (Hm : In m (Extractor._extract_dates parse now finditer text published_date))
    by (rewrite E; now left).
  apply extract_dates_in in Hm as [Hin _].
  pose proof (collect_made parse now finditer text published_date) as H.
  rewrite Forall_forall in H.
  destruct (H m Hin) as [_ [[base [s [tz Hp]]] _]].
  now apply Hnone in Hp.
Qed.

Lemma X11_extract_dates_nothing_parsed_witness :
  Extractor._extract_dates (fun _ _ => Extractor.ParseError) Examples.treaty_now
    Examples.treaty_finditer Examples.treaty_text "2024-01-01" = [].
Proof.
  apply X11_extract_dates_nothing_parsed. discriminate.
Defined.

(** ** Source and article scores, continued *)

Lemma reputable_sources_lower :
  Credibility.reputable_sources = Credibility.REPUTABLE_SOURCES.
Proof. reflexivity. Qed.

(** X12.  [score_source] gives 88 or 95 to a reputable source and 40, 55
    or 70 to any other; so a score of 88 or more and reputability are the
    same thing, and reputable means that the lower-cased name contains an
    entry of the fixed list. *)
Theorem X12_score_source_tiers (source_name : string) :
  let r := Credibility.score_source source_name in
  (Credibility.is_reputable r = true <->
   exists w pre post, In w Credibility.REPUTABLE_SOURCES /\
     PyStr.lower source_name = (pre ++ w ++ post)%string) /\
  (Credibility.is_reputable r = true ->
   Credibility.score r = 88 \/ Credibility.score r = 95) /\
  (Credibility.is_reputable r = false ->
   Credibility.score r = 40 \/ Credibility.score r = 55 \/ Credibility.score r = 70) /\
  (Credibility.is_reputable r = true <-> 88 <= Credibility.score r) /\
  Credibility.source_name r = source_name.
Proof.
  intros r. subst r. unfold Credibility.score_source.
  rewrite <- any_in_spec, <- reputable_sources_lower.
  destruct (PyStr.any_in Credibility.reputable_sources (PyStr.lower source_name));
    repeat match goal with
           | |- context [PyStr.any_in ?ws ?s] => destruct (PyStr.any_in ws s)
           end; cbn [Credibility.score Credibility.is_reputable Credibility.source_name];
    repeat split; intros; try discriminate; try reflexivity; try lia; tauto.
Qed.

Lemma contains_shorter (w rest s : string) :
  PyStr.contains (w ++ rest)%string s = true -> PyStr.contains w s = true.
Proof.
  rewrite !contains_spec. intros [pre [post H]].
  exists pre, (rest ++ post)%string. rewrite H.
  f_equal. clear H. induction w as [|c w IH]; simpl; [reflexivity | now rewrite IH].
Qed.

(** X13.  The rule that gives 70 to a name with the generic word "times"
    never applies: such a name contains the list entry "time", so it
    counts as reputable and gets 88 or 95. *)
Theorem X13_times_is_always_reputable (source_name : string) :
  PyStr.contains "times" (PyStr.lower source_name) = true ->
  let r := Credibility.score_source source_name in
  Credibility.is_reputable r = true /\
  (Credibility.score r = 88 \/ Credibility.score r = 95).
Proof.
  intros H r. subst r.
  apply (contains_shorter "time" "s") in H.
  assert (Hrep : PyStr.any_in Credibility.reputable_sources (PyStr.lower source_name) = true).
  { unfold PyStr.any_in. apply existsb_exists. exists "time". split; [|assumption].
    vm_compute. tauto. }
  unfold Credibility.score_source. rewrite Hrep.
  repeat match goal with
         | |- context [PyStr.any_in ?ws ?s] => destruct (PyStr.any_in ws s)
         end; cbn [Credibility.score Credibility.is_reputable]; split; tauto.
Qed.

Lemma X13_times_is_always_reputable_witness :
  Credibility.is_reputable (Credibility.score_source "Hindustan Times") = true /\
  (Credibility.score (Credibility.score_source "Hindustan Times") = 88 \/
   Credibility.score (Credibility.score_source "Hindustan Times") = 95).
Proof.
  apply (@X13_times_is_always_reputable "Hindustan Times"). reflexivity.
Defined.

(** ** Article scores, continued *)

(** What [detect_bias] returns, in closed form. *)
Lemma detect_bias_run (article : Article.t) :
  exists (n extra score : Z) (flags : list string),
    0 <= n <= 5 /\ (extra = 0 \/ extra = 5) /\ score = 10 * n + extra /\
    Bias.detect_bias article = Bias.mk score flags (score >? 15).
Proof.
  set (title := Article.get (Article.title article) "").
  set (content := PyStr.take 1000 (Article.get (Article.cleaned_content article) "")).
  pose proof (hits_bound (PyStr.lower title)) as Hb.
  unfold Bias.detect_bias. fold title. fold content.
  rewrite check_words. unfold Bias.exclamation_count.
  set (found := Props.hits (PyStr.lower title) Bias.clickbait_words) in *.
  exists (Z.of_nat (List.length found)).
  destruct (PyStr.count "!" title + PyStr.count "!" content >? 3).
  - exists 5. eexists. eexists. split; [lia|]. split; [now right|].
    rewrite Z.min_l by lia. split; [|reflexivity]. lia.
  - exists 0. eexists. eexists. split; [lia|]. split; [now left|].
    rewrite Z.min_l by lia. split; [|reflexivity]. lia.
Qed.

(** What [score_article] returns, with the blend as an integer. *)
Lemma score_article_run (article : Article.t) :
  exists (s b t : Z) (clickbait : bool) (flags : list string),
    In s Props.source_scores /\ 0 <= b <= 55 /\
    (clickbait = true -> 20 <= b) /\
    t = (7 * s + 3 * (100 - b)) / 10 /\
    Credibility.score_article article
    = Ok (Credibility.mkArticle
            (Z.min 100 (if clickbait then Z.max 0 (t - 20) else t))
            s (100 - b) b clickbait flags
            (Credibility.score_source (Extra.source_of article))).
Proof.
  pose proof (score_source_values (Extra.source_of article)) as Hs.
  pose proof (content_quality_values article) as Hc.
  destruct (detect_bias_run article) as [n [extra [b [flags [Hn [He [Hb Hrun]]]]]]].
  unfold Credibility.score_article. fold (Extra.source_of article).
  rewrite Hrun in *. cbn [Bias.bias_score Bias.is_clickbait Bias.flags] in *.
  set (s := Credibility.score (Credibility.score_source (Extra.source_of article))) in *.
  exists s, b, ((7 * s + 3 * (100 - b)) / 10), (b >? 15), flags.
  split; [assumption|]. split; [lia|]. split.
  { intros H. apply Z.gtb_lt in H. lia. }
  split; [reflexivity|].
  rewrite Z.max_r by lia.
  rewrite (blend_exact Hs Hc). reflexivity.
Qed.

Lemma score_article_range (article : Article.t) :
  exists sc,
    Credibility.score_article article = Ok sc /\
    0 <= Credibility.overall_score sc <= 100.
Proof.
  destruct (score_article_run article)
    as [s [b [t [clickbait [flags [Hs [Hb [Hclick [Ht ->]]]]]]]]].
  eexists. split; [reflexivity|]. cbn [Credibility.overall_score].
  unfold Props.source_scores in Hs. cbn [In] in Hs.
  assert (H0 : 0 <= t).
  { subst t. apply Z.div_pos; lia. }
  destruct clickbait; lia.
Qed.

(** X14.  Every article gets a score; it never exceeds 96, so the cap at
    100 never applies; the content score is 100 minus the bias score; and
    a clickbait article scores at most 70, which is never the level
    "High". *)
Theorem X14_article_score_bounds (article : Article.t) :
  exists sc,
    Credibility.score_article article = Ok sc /\
    0 <= Credibility.overall_score sc <= 96 /\
    Credibility.content_score sc = 100 - Credibility.article_bias_score sc /\
    (Credibility.article_is_clickbait sc = true ->
     Credibility.overall_score sc <= 70 /\
     Scorer.get_authenticity_level (Credibility.overall_score sc) <> "High").
Proof.
  destruct (score_article_run article)
    as [s [b [t [clickbait [flags [Hs [Hb [Hclick [Ht ->]]]]]]]]].
  eexists. split; [reflexivity|].
  cbn [Credibility.overall_score Credibility.content_score
       Credibility.article_bias_score Credibility.article_is_clickbait].
  unfold Props.source_scores in Hs. cbn [In] in Hs.
  assert (H0 : 0 <= t < 97).
  { subst t. split; [apply Z.div_pos; lia | apply Z.div_lt_upper_bound; lia]. }
  split; [destruct clickbait; lia|]. split; [reflexivity|].
  intros ->. specialize (Hclick eq_refl).
  assert (H1 : t < 91).
  { subst t. apply Z.div_lt_upper_bound; lia. }
  assert (H2 : Z.min 100 (Z.max 0 (t - 20)) <= 70) by lia.
  split; [exact H2|].
  unfold Scorer.get_authenticity_level.
  rewrite !Z.geb_leb.
  destruct (Z.leb_spec 80 (Z.min 100 (Z.max 0 (t - 20)))); [lia|].
  destruct (60 <=? _); [discriminate|]. destruct (40 <=? _); discriminate.
Qed.

(** X15.  The authenticity level is one of four names and never gets
    worse when the score grows; "High" starts at 80, "Medium" at 60 and
    "Low" at 40. *)
Theorem X15_authenticity_level_monotone (a b : Z) :
  a <= b ->
  Extra.rank (Scorer.get_authenticity_level a)
  <= Extra.rank (Scorer.get_authenticity_level b) /\
  (Extra.rank (Scorer.get_authenticity_level a) = 3 <-> 80 <= a) /\
  (Extra.rank (Scorer.get_authenticity_level a) = 2 <-> 60 <= a < 80) /\
  (Extra.rank (Scorer.get_authenticity_level a) = 1 <-> 40 <= a < 60) /\
  (Extra.rank (Scorer.get_authenticity_level a) = 0 <-> a < 40).
Proof.
  intros H. unfold Scorer.get_authenticity_level. rewrite !Z.geb_leb.
  assert (R3 : Extra.rank "High" = 3) by reflexivity.
  assert (R2 : Extra.rank "Medium" = 2) by reflexivity.
  assert (R1 : Extra.rank "Low" = 1) by reflexivity.
  assert (R0 : Extra.rank "Very Low" = 0) by reflexivity.
  destruct (Z.leb_spec 80 a), (Z.leb_spec 60 a), (Z.leb_spec 40 a),
    (Z.leb_spec 80 b), (Z.leb_spec 60 b), (Z.leb_spec 40 b);
    try lia; cbv beta iota; rewrite ?R3, ?R2, ?R1, ?R0; lia.
Qed.

Lemma X15_authenticity_level_monotone_witness :
  Extra.rank (Scorer.get_authenticity_level 59)
  <= Extra.rank (Scorer.get_authenticity_level 60) /\
  (Extra.rank (Scorer.get_authenticity_level 59) = 3 <-> 80 <= 59) /\
  (Extra.rank (Scorer.get_authenticity_level 59) = 2 <-> 60 <= 59 < 80) /\
  (Extra.rank (Scorer.get_authenticity_level 59) = 1 <-> 40 <= 59 < 60) /\
  (Extra.rank (Scorer.get_authenticity_level 59) = 0 <-> 59 < 40).
Proof. apply (@X15_authenticity_level_monotone 59 60). lia. Defined.

(** ** Scores of a set of articles *)

Lemma average_table_20 (n s : nat) :
  In n (seq 1 20) -> In s (seq 0 (100 * n + 1)) ->
  Extra.average_agrees n s = true.
Proof.
  assert (T : forallb
                (fun n => forallb (Extra.average_agrees n) (seq 0 (100 * n + 1)))
                (seq 1 20) = true)
    by (vm_compute; reflexivity).
  intros Hn Hs. rewrite forallb_forall in T. specialize (T n Hn).
  rewrite forallb_forall in T. exact (T s Hs).
Qed.

(** For up to 20 scores between 0 and 100 the float quotient truncates
    to the integer quotient. *)
Lemma average_exact (n s : nat) :
  (1 <= n <= 20)%nat -> (s <= 100 * n)%nat ->
  Credibility.int (Credibility.float_of_int (Z.of_nat s)
                   / Credibility.float_of_int (Z.of_nat n))%float
  = Ok (Z.of_nat s / Z.of_nat n).
Proof.
  intros Hn Hs.
  assert (H : Extra.average_agrees n s = true)
    by (apply average_table_20; apply in_seq; lia).
  unfold Extra.average_agrees in H.
  destruct (Credibility.int _); [|discriminate].
  apply Z.eqb_eq in H. now subst.
Qed.

Section TallyFacts.
Import Extra.

Lemma known_spec name ss : Scorer.known name ss = true <-> In name (map fst ss).
Proof.
  unfold Scorer.known. rewrite existsb_exists, in_map_iff.
  split; intros [x H]; exists x.
  - destruct H as [Hin H]. apply String.eqb_eq in H. now split.
  - destruct H as [H Hin]. split; [assumption | now apply String.eqb_eq].
Qed.

Lemma tally_keys names : forall ss k,
  In k (map fst (tally names ss)) <-> In k (map fst ss) \/ In k names.
Proof.
  induction names as [|n names IH]; intros ss k; simpl; [tauto|].
  unfold tally in *. rewrite IH. unfold add_source.
  destruct (Scorer.known n ss) eqn:K.
  - apply known_spec in K. split; [tauto|]. intros [H|[<-|H]]; tauto.
  - rewrite map_app, in_app_iff. simpl. tauto.
Qed.

Lemma tally_nodup names : forall ss,
  NoDup (map fst ss) -> NoDup (map fst (tally names ss)).
Proof.
  induction names as [|n names IH]; intros ss H; simpl; [assumption|].
  apply IH. unfold add_source. destruct (Scorer.known n ss) eqn:K; [assumption|].
  rewrite map_app. simpl. apply NoDup_app; [assumption | repeat constructor; easy|].
  intros x Hx [<-|[]]. apply known_spec in Hx. congruence.
Qed.

Lemma tally_entries names : forall ss,
  Forall (fun entry => snd entry = Credibility.score_source (fst entry)) ss ->
  Forall (fun entry => snd entry = Credibility.score_source (fst entry)) (tally names ss).
Proof.
  induction names as [|n names IH]; intros ss H; simpl; [assumption|].
  apply IH. unfold add_source. destruct (Scorer.known n ss); [assumption|].
  apply Forall_app. split; [assumption | now repeat constructor].
Qed.

Lemma tally_length names : forall ss,
  (List.length (tally names ss) <= List.length ss + List.length names)%nat.
Proof.
  induction names as [|n names IH]; intros ss; simpl; [lia|].
  unfold tally in *. etransitivity; [apply IH|].
  unfold add_source. destruct (Scorer.known n ss); [lia|].
  rewrite length_app. simpl. lia.
Qed.

Lemma score_each_run articles : forall ss scores0,
  exists scores,
    Scorer.score_each articles (ss, scores0)
    = Ok (tally (map source_of articles) ss, scores0 ++ scores) /\
    Forall2 (fun a sc => Credibility.score_article a = Ok sc) articles scores.
Proof.
  induction articles as [|a articles IH]; intros ss scores0.
  - exists []. rewrite app_nil_r. split; [reflexivity | constructor].
  - destruct (score_article_run a)
      as [s [b [t [clickbait [flags [_ [_ [_ [_ Hrun]]]]]]]]].
    cbn [Scorer.score_each Scorer.score_one map tally fold_left].
    fold (source_of a). fold (add_source ss (source_of a)).
    rewrite Hrun. cbn [bind].
    destruct (IH (add_source ss (source_of a))
                (scores0 ++ [Credibility.mkArticle
                   (Z.min 100 (if clickbait then Z.max 0 (t - 20) else t))
                   s (100 - b) b clickbait flags
                   (Credibility.score_source (source_of a))]))
      as [scores [Heq Hall]].
    eexists. split.
    + rewrite Heq, <- app_assoc. reflexivity.
    + constructor; [exact Hrun | exact Hall].
Qed.

Lemma total_bounds articles scores :
  Forall2 (fun a sc => Credibility.score_article a = Ok sc) articles scores ->
  0 <= Scorer.total scores <= 100 * Z.of_nat (List.length scores) /\
  List.length scores = List.length articles.
Proof.
  induction 1 as [|a sc articles scores Ha _ IH].
  - simpl. split; [unfold Scorer.total; simpl; lia | reflexivity].
  - destruct IH as [IH Hlen].
    destruct (score_article_range a) as [sc' [Hsc' Hb]].
    rewrite Ha in Hsc'. injection Hsc' as <-.
    unfold Scorer.total in *. cbn [map fold_right List.length].
    rewrite Nat2Z.inj_succ. split; [lia | now rewrite Hlen].
Qed.
End TallyFacts.

(** The report for up to 20 articles. *)
Lemma score_all_run (articles : list Article.t) :
  (List.length articles <= 20)%nat ->
  exists scores,
    Forall2 (fun a sc => Credibility.score_article a = Ok sc) articles scores /\
    Scorer.score_all_sources articles
    = Ok (Scorer.mkReport
            (Scorer.total scores / Z.of_nat (List.length articles))
            (Extra.tally (map Extra.source_of articles) [])
            scores
            (Z.of_nat (List.length (Extra.tally (map Extra.source_of articles) [])))
            (Z.of_nat (List.length
               (filter (fun entry => Credibility.is_reputable (snd entry))
                  (Extra.tally (map Extra.source_of articles) []))))).
Proof.
  intros Hlen.
  destruct (score_each_run articles [] []) as [scores [Hrun Hall]].
  exists scores. split; [assumption|].
  unfold Scorer.score_all_sources. rewrite Hrun. cbn [bind app].
  destruct (total_bounds Hall) as [Htot Hn].
  assert (Havg : Scorer.average scores
                 = Ok (Scorer.total scores / Z.of_nat (List.length articles))).
  { unfold Scorer.average. destruct scores as [|sc scores'].
    - destruct articles; [reflexivity | discriminate].
    - rewrite <- Hn.
      rewrite <- (Z2Nat.id (Scorer.total (sc :: scores'))) by lia.
      apply average_exact; [simpl in *; lia|].
      apply Nat2Z.inj_le. rewrite Z2Nat.id by lia.
      rewrite Nat2Z.inj_mul. simpl Z.of_nat at 1. lia. }
  rewrite Havg. reflexivity.
Qed.

(** X16.  For up to 20 articles (the most the application passes on)
    [score_all_sources] returns a report with one score per article, in
    order, each the result of [score_article]; the average is the
    integer part of the mean of the overall scores, 0 for no article, and
    lies in [0,100]. *)
Theorem X16_score_all_article_scores (articles : list Article.t) :
  (List.length articles <= 20)%nat ->
  exists r,
    Scorer.score_all_sources articles = Ok r /\
    Forall2 (fun a sc => Credibility.score_article a = Ok sc)
      articles (Scorer.article_scores r) /\
    Scorer.average_authenticity r
    = Scorer.total (Scorer.article_scores r) / Z.of_nat (List.length articles) /\
    0 <= Scorer.average_authenticity r <= 100 /\
    (articles = [] -> Scorer.average_authenticity r = 0).
Proof.
  intros Hlen. destruct (score_all_run articles Hlen) as [scores [Hall ->]].
  eexists. split; [reflexivity|].
  cbn [Scorer.article_scores Scorer.average_authenticity].
  destruct (total_bounds Hall) as [Htot Hn].
  split; [assumption|]. split; [reflexivity|]. split.
  - rewrite <- Hn. destruct scores as [|sc scores'].
    + simpl. rewrite Z.div_0_r. lia.
    + split.
      * apply Z.div_pos; [lia | simpl; lia].
      * apply Z.div_le_upper_bound; [simpl; lia | lia].
  - intros ->. inversion Hall. reflexivity.
Qed.

Lemma X16_score_all_article_scores_witness :
  exists r,
    Scorer.score_all_sources [Examples.cnn_article; Examples.loud_article] = Ok r /\
    Forall2 (fun a sc => Credibility.score_article a = Ok sc)
      [Examples.cnn_article; Examples.loud_article] (Scorer.article_scores r) /\
    Scorer.average_authenticity r
    = Scorer.total (Scorer.article_scores r) / Z.of_nat 2 /\
    0 <= Scorer.average_authenticity r <= 100 /\
    ([Examples.cnn_article; Examples.loud_article] = [] ->
     Scorer.average_authenticity r = 0).
Proof.
  apply (@X16_score_all_article_scores [Examples.cnn_article; Examples.loud_article]).
  simpl. lia.
Defined.

Example score_all_two :
  option_map Scorer.average_authenticity
    (match Scorer.score_all_sources [Examples.cnn_article; Examples.loud_article] with
     | Ok r => Some r
     | Raise _ => None
     end) = Some 59.
Proof. vm_compute. reflexivity. Qed.

(** X17.  In that report the dictionary of source scores has one entry
    per distinct source name of the articles (a missing name counts as
    "Unknown"), in the order of first appearance, each holding
    [score_source] of its name; [total_sources] is their number, at most
    the number of articles, and the count of reputable ones is at most
    that. *)
Theorem X17_score_all_source_scores (articles : list Article.t) :
  (List.length articles <= 20)%nat ->
  exists r,
    Scorer.score_all_sources articles = Ok r /\
    NoDup (map fst (Scorer.source_scores r)) /\
    (forall name, In name (map fst (Scorer.source_scores r)) <->
                  exists a, In a articles /\ Extra.source_of a = name) /\
    (forall name sc, In (name, sc) (Scorer.source_scores r) ->
                     sc = Credibility.score_source name) /\
    Scorer.total_sources r = Z.of_nat (List.length (Scorer.source_scores r)) /\
    0 <= Scorer.reputable_sources_count r <= Scorer.total_sources r /\
    Scorer.total_sources r <= Z.of_nat (List.length articles).
Proof.
  intros Hlen. destruct (score_all_run articles Hlen) as [scores [Hall ->]].
  eexists. split; [reflexivity|].
  cbn [Scorer.source_scores Scorer.total_sources Scorer.reputable_sources_count].
  set (ss := Extra.tally (map Extra.source_of articles) []).
  split; [apply tally_nodup; constructor|]. split.
  { intros name. unfold ss. rewrite tally_keys. cbn [map In]. split.
    - intros [[] | H]. apply in_map_iff in H as [a [H Ha]]. now exists a.
    - intros [a [Ha H]]. right. apply in_map_iff. now exists a. }
  split.
  { intros name sc Hin.
    pose proof (@tally_entries (map Extra.source_of articles) [] ltac:(constructor)) as H.
    rewrite Forall_forall in H. apply (H _ Hin). }
  split; [reflexivity|].
  pose proof (filter_length_le (fun entry => Credibility.is_reputable (snd entry)) ss).
  pose proof (tally_length (map Extra.source_of articles) []) as Hl.
  rewrite length_map in Hl. fold ss in Hl. simpl in Hl. lia.
Qed.

Lemma X17_score_all_source_scores_witness :
  exists r,
    Scorer.score_all_sources [Examples.cnn_article; Examples.cnn_article] = Ok r /\
    NoDup (map fst (Scorer.source_scores r)) /\
    (forall name, In name (map fst (Scorer.source_scores r)) <->
                  exists a, In a [Examples.cnn_article; Examples.cnn_article] /\
                            Extra.source_of a = name) /\
    (forall name sc, In (name, sc) (Scorer.source_scores r) ->
                     sc = Credibility.score_source name) /\
    Scorer.total_sources r = Z.of_nat (List.length (Scorer.source_scores r)) /\
    0 <= Scorer.reputable_sources_count r <= Scorer.total_sources r /\
    Scorer.total_sources r <= Z.of_nat 2.
Proof.
  apply (@X17_score_all_source_scores [Examples.cnn_article; Examples.cnn_article]).
  simpl. lia.
Defined.

(** ** Sorting by any key *)

Lemma string_leb_trans (a b c : string) :
  String.leb a b = true -> String.leb b c = true -> String.leb a c = true.
Proof.
  unfold String.leb. revert b c.
  induction a as [|x a IH]; intros [|y b] [|z c]; simpl; try easy.
  unfold Ascii.compare.
  destruct (N.compare_spec (N_of_ascii x) (N_of_ascii y)) as [E1|L1|G1],
           (N.compare_spec (N_of_ascii y) (N_of_ascii z)) as [E2|L2|G2],
           (N.compare_spec (N_of_ascii x) (N_of_ascii z)) as [E3|L3|G3];
    try easy; try lia.
  apply IH.
Qed.

Section SortByKey.
Variables A K : Type.
Variable leb : K -> K -> bool.
Variable key : A -> K.
Hypothesis leb_total : forall a b, leb a b = true \/ leb b a = true.
Hypothesis leb_trans : forall a b c, leb a b = true -> leb b c = true -> leb a c = true.

Let le_key (x y : A) : Prop := leb (key x) (key y) = true.

Lemma by_key_insert_perm (x : A) (l : list A) :
  Permutation (PySort.insert leb key x l) (x :: l).
Proof.
  induction l as [|y l IH]; simpl; [reflexivity|].
  destruct (leb (key x) (key y)); [reflexivity|].
  rewrite IH. apply perm_swap.
Qed.

Lemma by_key_sorted_perm (l : list A) : Permutation (PySort.sorted leb key l) l.
Proof.
  induction l as [|x l IH]; [reflexivity|].
  change (PySort.sorted leb key (x :: l))
    with (PySort.insert leb key x (PySort.sorted leb key l)).
  rewrite by_key_insert_perm. now constructor.
Qed.

Lemma by_key_insert_sorted (x : A) (l : list A) :
  StronglySorted le_key l -> StronglySorted le_key (PySort.insert leb key x l).
Proof.
  induction 1 as [|y l Hs IH Hall]; simpl.
  - repeat constructor.
  - destruct (leb (key x) (key y)) eqn:E.
    + constructor; [now constructor|].
      constructor; [exact E|].
      eapply Forall_impl; [|exact Hall].
      intros z Hz. eapply leb_trans; [exact E | exact Hz].
    + constructor; [exact IH|].
      eapply Permutation_Forall; [symmetry; apply by_key_insert_perm|].
      constructor; [|exact Hall].
      destruct (leb_total (key x) (key y)) as [H|H]; [congruence | exact H].
Qed.

Lemma by_key_sorted_sorted (l : list A) :
  StronglySorted le_key (PySort.sorted leb key l).
Proof.
  induction l as [|x l IH]; [constructor|].
  change (PySort.sorted leb key (x :: l))
    with (PySort.insert leb key x (PySort.sorted leb key l)).
  now apply by_key_insert_sorted.
Qed.
End SortByKey.

(** ** The analysis without a language model *)

Section BasicFacts.
Import Fallback Extra.
Variable docs : list Summary.

Lemma visit_inv doc info st :
  In doc docs -> In info (infos doc) ->
  basic_inv docs st -> basic_inv docs (visit doc st info).
Proof.
  intros Hdoc Hinfo. destruct st as [events all]. intros H.
  pose proof H as [Hnd [Hsync Hall]].
  unfold visit. destruct (date_of info) as [d|] eqn:D; [|exact H].
  destruct (String.eqb_spec d "") as [->|Hne]; cbn [negb andb]; [exact H|].
  destruct (existsb (String.eqb d) all) eqn:E; cbn [negb]; [exact H|].
  assert (Hout : ~ In d all).
  { intros Hin. apply Bool.not_true_iff_false in E. apply E.
    apply existsb_exists. exists d. split; [assumption | apply String.eqb_refl]. }
  simpl in *. unfold basic_inv. simpl. split; [|split].
  - rewrite map_app. simpl. apply NoDup_app; [assumption | repeat constructor; easy|].
    intros x Hx [<-|[]]. apply Hout. now apply Hsync.
  - intros x. rewrite map_app, in_app_iff, Hsync. simpl. tauto.
  - apply Forall_app. split; [assumption|]. constructor; [|constructor].
    simpl. split; [assumption|]. split; [now exists doc, info | now exists doc].
Qed.

Lemma visit_list_inv doc : forall l st,
  In doc docs -> incl l (infos doc) ->
  basic_inv docs st -> basic_inv docs (fold_left (visit doc) l st).
Proof.
  induction l as [|info l IH]; intros st Hdoc Hincl H; simpl; [assumption|].
  apply IH; [assumption | intros x Hx; apply Hincl; now right|].
  apply visit_inv; [assumption | apply Hincl; now left | assumption].
Qed.

Lemma visit_article_inv doc st :
  In doc docs -> basic_inv docs st -> basic_inv docs (visit_article st doc).
Proof.
  intros Hdoc H. unfold visit_article.
  apply visit_list_inv; [assumption | apply incl_refl | assumption].
Qed.

Lemma visit_articles_inv : forall l st,
  incl l docs -> basic_inv docs st -> basic_inv docs (fold_left visit_article l st).
Proof.
  induction l as [|doc l IH]; intros st Hincl H; simpl; [assumption|].
  apply IH; [intros x Hx; apply Hincl; now right|].
  apply visit_article_inv; [apply Hincl; now left | assumption].
Qed.

(** Dates once seen stay seen, and every non-empty date gets seen. *)
Lemma visit_keeps doc info st d : In d (snd st) -> In d (snd (visit doc st info)).
Proof.
  destruct st as [events all]. unfold visit.
  destruct (date_of info); [|easy].
  destruct (negb _ && negb _); simpl; [now right | easy].
Qed.

Lemma visit_adds doc info st d :
  date_of info = Some d -> d <> "" -> In d (snd (visit doc st info)).
Proof.
  destruct st as [events all]. unfold visit. intros -> Hne.
  destruct (String.eqb_spec d ""); [contradiction|]. cbn [negb andb].
  destruct (existsb (String.eqb d) all) eqn:E; cbn [negb]; simpl; [|now left].
  apply existsb_exists in E as [x [Hx Hdx]]. apply String.eqb_eq in Hdx. now subst.
Qed.

Lemma visit_list_keeps doc d : forall l st,
  In d (snd st) -> In d (snd (fold_left (visit doc) l st)).
Proof.
  induction l as [|info l IH]; intros st H; simpl; [assumption|].
  apply IH. now apply visit_keeps.
Qed.

Lemma visit_list_adds doc info d : forall l st,
  In info l -> date_of info = Some d -> d <> "" ->
  In d (snd (fold_left (visit doc) l st)).
Proof.
  induction l as [|info' l IH]; intros st Hin Hd Hne; [destruct Hin|].
  destruct Hin as [->|Hin]; simpl.
  - apply visit_list_keeps. now apply visit_adds.
  - now apply IH.
Qed.

Lemma visit_articles_keeps d : forall l st,
  In d (snd st) -> In d (snd (fold_left visit_article l st)).
Proof.
  induction l as [|doc l IH]; intros st H; simpl; [assumption|].
  apply IH. now apply visit_list_keeps.
Qed.

Lemma visit_articles_adds doc info d : forall l st,
  In doc l -> In info (infos doc) -> date_of info = Some d -> d <> "" ->
  In d (snd (fold_left visit_article l st)).
Proof.
  induction l as [|doc' l IH]; intros st Hin Hinfo Hd Hne; [destruct Hin|].
  destruct Hin as [->|Hin]; simpl.
  - apply visit_articles_keeps. unfold visit_article.
    now apply visit_list_adds with (info := info).
  - now apply IH.
Qed.
End BasicFacts.

Lemma basic_analysis_facts
    (list_of_set : list string -> list string)
    (event_query : string) (docs : list Fallback.Summary) :
  let r := Fallback._basic_analysis list_of_set event_query docs in
  NoDup (map Fallback.date (Fallback.timeline r)) /\
  StronglySorted Extra.string_le (map Fallback.date (Fallback.timeline r)) /\
  (forall d, In d (map Fallback.date (Fallback.timeline r)) <->
             d <> "" /\ Extra.carried docs d) /\
  (forall it, In it (Fallback.timeline r) ->
     exists doc, In doc docs /\ it = Fallback.reported doc (Fallback.date it)) /\
  List.length (Fallback.key_highlights r) = Nat.min 5 (List.length docs) /\
  Fallback.discrepancies r = [] /\ Fallback.verified_facts r = [].
Proof.
  intros r. subst r. unfold Fallback._basic_analysis.
  pose proof (@visit_articles_inv docs docs ([], []) (incl_refl _)) as Hinv.
  assert (H0 : Extra.basic_inv docs ([], [])).
  { repeat split; simpl; try constructor; tauto. }
  specialize (Hinv H0).
  pose proof (fun doc info d => @visit_articles_adds doc info d docs ([], [])) as Hadd.
  destruct (fold_left Fallback.visit_article docs ([], [])) as [events all].
  destruct Hinv as [Hnd [Hsync Hall]]. simpl in Hnd, Hsync, Hall, Hadd.
  cbn [Fallback.timeline Fallback.key_highlights Fallback.discrepancies
       Fallback.verified_facts].
  pose proof (by_key_sorted_perm String.leb Fallback.date events) as Hp.
  rewrite Forall_forall in Hall.
  split; [|split; [|split; [|split; [|split]]]].
  - apply (Permutation_NoDup (l := map Fallback.date events)); [|assumption].
    apply Permutation_map. now symmetry.
  - pose proof (@by_key_sorted_sorted _ _ String.leb Fallback.date
                  String.leb_total string_leb_trans events) as Hs.
    clear - Hs. induction Hs as [|x l _ IH Hx]; simpl; constructor; [assumption|].
    rewrite Forall_forall in *. intros d Hd.
    apply in_map_iff in Hd as [y [<- Hy]]. now apply Hx.
  - intros d. split.
    + intros Hd. apply (Permutation_in _ (Permutation_map Fallback.date Hp)) in Hd.
      apply in_map_iff in Hd as [it [<- Hit]].
      destruct (Hall it Hit) as [Hne [Hc _]]. now split.
    + intros [Hne [doc [info [Hdoc [Hinfo Hd]]]]].
      apply (Permutation_in _ (Permutation_map Fallback.date (Permutation_sym Hp))).
      apply Hsync. now apply (Hadd doc info d).
  - intros it Hit. apply (Permutation_in _ Hp) in Hit.
    now destruct (Hall it Hit) as [_ [_ H]].
  - rewrite length_firstn, length_map, length_firstn. lia.
  - split; reflexivity.
Qed.

(** X18.  The timeline of [_basic_analysis] has pairwise distinct dates,
    in ascending order of the date strings; its dates are exactly the
    non-empty date strings that the summaries carry; and each entry is
    the report of one of the summaries for its date. *)
Theorem X18_basic_analysis_timeline
    (list_of_set : list string -> list string)
    (event_query : string) (docs : list Fallback.Summary) :
  let r := Fallback._basic_analysis list_of_set event_query docs in
  NoDup (map Fallback.date (Fallback.timeline r)) /\
  StronglySorted Extra.string_le (map Fallback.date (Fallback.timeline r)) /\
  (forall d, In d (map Fallback.date (Fallback.timeline r)) <->
             d <> "" /\ Extra.carried docs d) /\
  (forall it, In it (Fallback.timeline r) ->
     exists doc, In doc docs /\ it = Fallback.reported doc (Fallback.date it)) /\
  List.length (Fallback.key_highlights r) = Nat.min 5 (List.length docs) /\
  Fallback.discrepancies r = [] /\ Fallback.verified_facts r = [].
Proof. apply basic_analysis_facts. Qed.

(** ** The fallback analysis and the timeline together *)

Section FallbackTimeline.
Import Timeline Extra.

Lemma ai_events_of_result (r : Fallback.Result) :
  ai_events (Fallback.to_analysis r) = map ai_entry (Fallback.timeline r).
Proof.
  unfold ai_events, Fallback.to_analysis. simpl.
  induction (Fallback.timeline r) as [|it l IH]; simpl; [reflexivity|].
  now rewrite IH.
Qed.

Lemma add_article_known (a : Article.t) (evs : list Event) :
  (forall m, In m (Props.mentions a) -> In (Mention.date m) (map date evs)) ->
  add_article evs a = evs.
Proof.
  unfold add_article, Props.mentions.
  induction (Article.get (Article.extracted_dates a) []) as [|m l IH];
    intros H; simpl; [reflexivity|].
  unfold add_date at 2.
  assert (Hm : existsb (has_date (Mention.date m)) evs = true)
    by (apply existsb_has_date, H; now left).
  rewrite Hm. apply IH. intros m' Hm'. apply H. now right.
Qed.

Lemma collect_known (articles : list Article.t) (evs : list Event) :
  (forall a m, In a articles -> In m (Props.mentions a) ->
               In (Mention.date m) (map date evs)) ->
  fold_left add_article articles evs = evs.
Proof.
  induction articles as [|a articles IH]; intros H; simpl; [reflexivity|].
  rewrite add_article_known by (intros m Hm; apply (H a); [now left | assumption]).
  apply IH. intros a' m Ha Hm. apply (H a'); [now right | assumption].
Qed.

Lemma summarized (articles : list Article.t) (a : Article.t) : forall start,
  In a articles ->
  exists i, In (Fallback.summarize i a)
              (map (fun p => Fallback.summarize (fst p) (snd p))
                 (combine (seq start (List.length articles)) articles)).
Proof.
  induction articles as [|a' articles IH]; intros start Hin; [destruct Hin|].
  destruct Hin as [->|Hin]; simpl.
  - exists start. now left.
  - destruct (IH (S start) Hin) as [i Hi]. exists i. now right.
Qed.
End FallbackTimeline.

(** X19.  With the fallback analysis of up to 10 articles whose mention
    dates are not empty, collection adds no coverage entry: the timeline
    consists of the entries of the analysis, one event per entry, each
    with the source "ai_analysis" and none merged. *)
Theorem X19_fallback_timeline_is_the_analysis
    (set_order list_of_set : list string -> list string)
    (event_query : string) (articles : list Article.t) :
  (List.length articles <= 10)%nat ->
  (forall a m, In a articles -> In m (Props.mentions a) -> Mention.date m <> "") ->
  let r := Fallback._basic_analysis set_order event_query
             (Fallback.summaries articles) in
  let analysis := Fallback.to_analysis r in
  let out := Timeline.generate_timeline list_of_set analysis articles in
  Timeline.collect analysis articles = Timeline.ai_events analysis /\
  List.length out = List.length (Fallback.timeline r) /\
  forall e, In e out ->
    Timeline.source e = Some "ai_analysis" /\ Timeline.event_count e = None /\
    In (Timeline.date e) (map Fallback.date (Fallback.timeline r)).
Proof.
  intros Hlen Hne r analysis out.
  destruct (basic_analysis_facts set_order event_query (Fallback.summaries articles))
    as [Hnd [_ [Hdates _]]].
  fold r in Hnd, Hdates.
  assert (Hai : Timeline.ai_events analysis = map Extra.ai_entry (Fallback.timeline r))
    by apply ai_events_of_result.
  assert (Hmap : map Timeline.date (Timeline.ai_events analysis)
                 = map Fallback.date (Fallback.timeline r)).
  { rewrite Hai, map_map. reflexivity. }
  assert (Hcollect : Timeline.collect analysis articles = Timeline.ai_events analysis).
  { unfold Timeline.collect. apply collect_known. intros a m Ha Hm.
    rewrite Hmap. apply Hdates. split; [now apply (Hne a)|].
    unfold Fallback.summaries. rewrite firstn_all2 by assumption.
    destruct (summarized articles a 1 Ha) as [i Hi].
    exists (Fallback.summarize i a), (Fallback.DateStr (Mention.date m)).
    split; [exact Hi|]. split; [|reflexivity].
    unfold Extra.infos. simpl. apply in_map_iff. now exists m. }
  split; [exact Hcollect|].
  assert (Hmerge : Timeline._merge_duplicate_dates list_of_set
                     (Timeline.ai_events analysis) = Timeline.ai_events analysis).
  { apply merge_distinct. now rewrite Hmap. }
  unfold out, Timeline.generate_timeline. rewrite Hcollect, Hmerge. split.
  - rewrite <- (length_map Extra.content), identify_field by reflexivity.
    rewrite length_map. unfold Timeline._sort_timeline.
    rewrite (Permutation_length (sorted_perm _ _)), Hai. apply length_map.
  - intros e He. apply identify_in in He as [e0 [b [He0 ->]]].
    unfold Timeline._sort_timeline in He0.
    apply (Permutation_in _ (sorted_perm _ _)) in He0.
    rewrite Hai in He0. apply in_map_iff in He0 as [it [<- Hit]].
    simpl. repeat split. apply in_map_iff. now exists it.
Qed.

Lemma X19_fallback_timeline_is_the_analysis_witness :
  let r := Fallback._basic_analysis Props.some_set_order "summit"
             (Fallback.summaries [Examples.summit_article]) in
  let analysis := Fallback.to_analysis r in
  let out := Timeline.generate_timeline Props.some_set_order analysis
               [Examples.summit_article] in
  Timeline.collect analysis [Examples.summit_article] = Timeline.ai_events analysis /\
  List.length out = List.length (Fallback.timeline r) /\
  forall e, In e out ->
    Timeline.source e = Some "ai_analysis" /\ Timeline.event_count e = None /\
    In (Timeline.date e) (map Fallback.date (Fallback.timeline r)).
Proof.
  apply (@X19_fallback_timeline_is_the_analysis Props.some_set_order
           Props.some_set_order "summit" [Examples.summit_article]).
  - simpl. lia.
  - intros a m [<-|[]] [<-|[]]. discriminate.
Defined.

Example scenario_A :
  Timeline.generate_timeline Props.some_set_order
    (Fallback.to_analysis
       (Fallback._basic_analysis Props.some_set_order "summit"
          (Fallback.summaries [Examples.summit_article])))
    [Examples.summit_article]
  = [Timeline.mkEvent "2024-02-10" "News reported by BBC News: Leaders meet"
       (Some "ai_analysis") None (Some true)].
Proof. reflexivity. Qed.

(** ** Cache keys *)

Section CacheKey.
Import Utils.







End CacheKey.


Example cache_key_example :
  Utils.get_cache_key "OpenAI's GPT-5 Launch" = "openais_gpt-5_launch".
Proof. reflexivity. Qed.

(** ** Fetching *)

Section FetchFacts.
Import Fetcher.
Variable max_articles : Z.

Lemma add_new_spec existing_urls : forall gnews_articles articles,
  Z.of_nat (List.length articles) < max_articles ->
  exists extra,
    add_new max_articles existing_urls gnews_articles articles = articles ++ extra /\
    Forall (fun a => In a gnews_articles /\ ~ In (url a) existing_urls) extra /\
    Z.of_nat (List.length (articles ++ extra)) <= max_articles.
Proof.
  induction gnews_articles as [|a rest IH]; intros articles Hlen; simpl.
  - exists []. rewrite app_nil_r. repeat split; [constructor | lia].
  - destruct (existsb (String.eqb (url a)) existing_urls) eqn:E.
    + destruct (IH articles Hlen) as [extra [Heq [Hall Hmax]]].
      exists extra. repeat split; try assumption.
      eapply Forall_impl; [|exact Hall]. intros x [Hx Hu]. split; [now right | assumption].
    + assert (Hout : ~ In (url a) existing_urls).
      { intros Hin. apply Bool.not_true_iff_false in E. apply E.
        apply existsb_exists. exists (url a). split; [assumption | apply String.eqb_refl]. }
      assert (Hlen' : Z.of_nat (List.length (articles ++ [a]))
                      = Z.of_nat (List.length articles) + 1)
        by (rewrite length_app; simpl; lia).
      rewrite Z.geb_leb. destruct (Z.leb_spec max_articles
                                     (Z.of_nat (List.length (articles ++ [a])))).
      * exists [a]. repeat split; [|lia].
        constructor; [|constructor]. split; [now left | assumption].
      * destruct (IH (articles ++ [a]) ltac:(lia)) as [extra [Heq [Hall Hmax]]].
        exists (a :: extra). rewrite Heq, <- app_assoc. simpl. repeat split.
        -- constructor; [split; [now left | assumption]|].
           eapply Forall_impl; [|exact Hall].
           intros x [Hx Hu]. split; [now right | assumption].
        -- rewrite <- app_assoc in Hmax. exact Hmax.
Qed.
End FetchFacts.

(** X21.  When the cache has nothing to offer and [MAX_ARTICLES] is not
    negative, [fetch_articles] returns at most [MAX_ARTICLES] articles:
    the NewsAPI articles first, then GNews articles whose URL no NewsAPI
    article has, cut at the limit; with enough NewsAPI articles the
    result is their first [MAX_ARTICLES]. *)
Theorem X21_fetch_articles_limit
    (max_articles : Z) (cache_enabled : bool)
    (cached : option (list Fetcher.RawArticle)) (newsapi_key : string)
    (newsapi gnews : result (list Fetcher.RawArticle)) :
  0 <= max_articles ->
  Extra.cache_miss cache_enabled cached ->
  let base := Extra.from_newsapi newsapi_key newsapi in
  let articles :=
    Fetcher.fetch_articles max_articles cache_enabled cached newsapi_key newsapi gnews in
  Z.of_nat (List.length articles) <= max_articles /\
  (exists extra,
     articles = firstn (Z.to_nat max_articles) (base ++ extra) /\
     Forall (fun a => In a (Extra.from_gnews gnews) /\
                      ~ In (Fetcher.url a) (map Fetcher.url base)) extra) /\
  (max_articles <= Z.of_nat (List.length base) ->
   articles = firstn (Z.to_nat max_articles) base).
Proof.
  intros Hmax Hmiss base articles.
  assert (Hrun : articles
            = Fetcher.slice_to max_articles
                (if Z.of_nat (List.length base) <? max_articles
                 then match gnews with
                      | Ok g => Fetcher.add_new max_articles (map Fetcher.url base) g base
                      | Raise _ => base
                      end
                 else base)).
  { unfold articles, Fetcher.fetch_articles. fold (Extra.from_newsapi newsapi_key newsapi).
    fold base.
    destruct Hmiss as [-> | [-> | ->]]; [reflexivity | |];
      destruct cache_enabled; reflexivity. }
  assert (Hslice : forall l : list Fetcher.RawArticle,
            Fetcher.slice_to max_articles l = firstn (Z.to_nat max_articles) l).
  { intros l. unfold Fetcher.slice_to.
    destruct (Z.leb_spec 0 max_articles); [reflexivity | lia]. }
  assert (Hfirst : forall l : list Fetcher.RawArticle,
            Z.of_nat (List.length (firstn (Z.to_nat max_articles) l)) <= max_articles).
  { intros l. rewrite length_firstn. lia. }
  rewrite Hrun, Hslice. split; [apply Hfirst|].
  destruct (Z.ltb_spec (Z.of_nat (List.length base)) max_articles) as [Hlt|Hge].
  - split; [|lia].
    destruct gnews as [g|e].
    + destruct (@add_new_spec max_articles (map Fetcher.url base) g base Hlt)
        as [extra [-> [Hall _]]].
      now exists extra.
    + exists []. rewrite app_nil_r. split; [reflexivity | constructor].
  - split; [|reflexivity].
    exists []. rewrite app_nil_r. split; [reflexivity | constructor].
Qed.

Lemma X21_fetch_articles_limit_witness :
  let base := Extra.from_newsapi "key" (Ok [Extra.wire_article]) in
  let articles :=
    Fetcher.fetch_articles 1 false None "key"
      (Ok [Extra.wire_article]) (Ok [Extra.feed_article]) in
  Z.of_nat (List.length articles) <= 1 /\
  (exists extra,
     articles = firstn (Z.to_nat 1) (base ++ extra) /\
     Forall (fun a => In a (Extra.from_gnews (Ok [Extra.feed_article])) /\
                      ~ In (Fetcher.url a) (map Fetcher.url base)) extra) /\
  (1 <= Z.of_nat (List.length base) -> articles = firstn (Z.to_nat 1) base).
Proof.
  apply (@X21_fetch_articles_limit 1 false None "key"
           (Ok [Extra.wire_article]) (Ok [Extra.feed_article])).
  - lia.
  - left. reflexivity.
Defined.

(** ** Coverage entries in the timeline *)

Lemma sharing_at_most_one (d : string) (l : list Timeline.Event) :
  NoDup (map Timeline.date l) ->
  (List.length (Props.sharing_date d l) <= 1)%nat.
Proof.
  unfold Props.sharing_date.
  induction l as [|e l IH]; simpl; intros H; [lia|].
  inversion H as [|? ? Hnotin Hnd]; subst.
  unfold Timeline.has_date at 1.
  destruct (String.eqb_spec (Timeline.date e) d) as [<-|Hne]; [|now apply IH].
  assert (Hnone : filter (Timeline.has_date (Timeline.date e)) l = []).
  { destruct (filter (Timeline.has_date (Timeline.date e)) l) as [|x l'] eqn:E;
      [reflexivity|].
    assert (Hx : In x (filter (Timeline.has_date (Timeline.date e)) l))
      by (rewrite E; now left).
    apply filter_In in Hx as [Hx Hd]. unfold Timeline.has_date in Hd.
    apply String.eqb_eq in Hd. exfalso. apply Hnotin. rewrite <- Hd.
    now apply in_map. }
  rewrite Hnone. simpl. lia.
Qed.

(** X22.  An event of the timeline whose date is not a date of the
    AI analysis is the coverage entry of one article mention, passed
    through with its flag: coverage entries are never merged, with each
    other or with AI-analysis entries. *)
Theorem X22_coverage_is_never_merged
    (list_of_set : list string -> list string)
    (analysis : Timeline.Analysis) (articles : list Article.t)
    (e : Timeline.Event) :
  In e (Timeline.generate_timeline list_of_set analysis articles) ->
  ~ In (Timeline.date e) (map Timeline.date (Timeline.ai_events analysis)) ->
  exists a m b,
    In a articles /\ In m (Props.mentions a) /\
    e = Timeline.set_milestone b (Timeline.coverage a (Mention.date m)).
Proof.
  unfold Timeline.generate_timeline. intros Hin Hout.
  apply identify_in in Hin as [e0 [b [Hin ->]]].
  unfold Timeline._sort_timeline in Hin.
  apply (Permutation_in _ (sorted_perm _ _)) in Hin.
  apply merge_in in Hin. simpl in Hin, Hout.
  destruct (@collect_extends articles (Timeline.ai_events analysis) articles
              (Timeline.ai_events analysis))
    as [rest [Heq [Hnd Hrest]]].
  - apply incl_refl.
  - exists []. rewrite app_nil_r. repeat split; [constructor | easy | easy].
  - fold (Timeline.collect analysis articles) in Heq. rewrite Heq in Hin.
    unfold Props.sharing_date in Hin. rewrite filter_app in Hin.
    assert (Hnone : filter (Timeline.has_date (Timeline.date e0))
                      (Timeline.ai_events analysis) = []).
    { destruct (filter (Timeline.has_date (Timeline.date e0))
                  (Timeline.ai_events analysis)) as [|x l] eqn:E; [reflexivity|].
      assert (Hx : In x (filter (Timeline.has_date (Timeline.date e0))
                           (Timeline.ai_events analysis)))
        by (rewrite E; now left).
      apply filter_In in Hx as [Hx Hd]. unfold Timeline.has_date in Hd.
      apply String.eqb_eq in Hd. exfalso. apply Hout. rewrite <- Hd.
      now apply in_map. }
    rewrite Hnone in Hin. simpl in Hin.
    pose proof (sharing_at_most_one (Timeline.date e0) rest Hnd) as Hone.
    unfold Props.sharing_date in Hone.
    destruct Hin as [Hsingle | [Hmany _]]; [|lia].
    assert (He0 : In e0 (filter (Timeline.has_date (Timeline.date e0)) rest))
      by (rewrite Hsingle; now left).
    apply filter_In in He0 as [He0 _].
    destruct (Hrest e0 He0) as [_ [a [m [Ha [Hm Hcov]]]]].
    exists a, m, b. rewrite Hcov at 1. auto.
Qed.

Lemma X22_coverage_is_never_merged_witness :
  exists a m b,
    In a [Examples.summit_article] /\ In m (Props.mentions a) /\
    Timeline.mkEvent "2024-02-10" "News coverage: Leaders meet" (Some "BBC News")
      None (Some true)
    = Timeline.set_milestone b (Timeline.coverage a (Mention.date m)).
Proof.
  apply (@X22_coverage_is_never_merged Props.some_set_order
           Examples.empty_analysis [Examples.summit_article]).
  - left. reflexivity.
  - simpl. tauto.
Defined.
